(** * The cost-model relaxation engine of [task-1/src/simulation/dataModel.ts]

    The module declares a small cost model (blocks [Production] and
    [Logistics]) whose calculated attributes depend on each other cyclically,
    a catalog of what-if scenarios, and [runSimulation], which resolves the
    input values and then relaxes the calculated attributes in place until
    the largest change of a pass drops below a threshold or the iteration
    cap is reached.

    JavaScript numbers are IEEE 754 binary64 values; they are modelled by the
    kernel's primitive floats.  Every definition is written once over an
    interface [Number] of the arithmetic the source uses, and read at two
    instances: [js_number] (binary64, what the program computes) and
    [exact_number] (the reals, the arithmetic the formulas idealise).
    Every property of the program is stated at [js_number], or for every
    instance; what is stated at [exact_number] alone is a remark on the
    formulas, not on a run of the program. *)

From Stdlib Require Import ZArith QArith Reals Qreals Lra Lia.
From Stdlib Require Import Floats.
From stdpp Require Import gmap strings.

Set Warnings "-inexact-float".

(** ** Numbers *)

(** The operations [runSimulation] performs on numbers: decimal literals,
    [+], [-], [*], [Math.abs], [<] and [Math.max(...list)]. *)
Class Number (A : Type) : Type := {
  lit : Q -> A;
  nadd : A -> A -> A;
  nsub : A -> A -> A;
  nmul : A -> A -> A;
  Math_abs : A -> A;
  nlt : A -> A -> bool;
  Math_max : list A -> A
}.

Declare Scope num_scope.
Delimit Scope num_scope with num.
Infix "+" := nadd : num_scope.
Infix "-" := nsub : num_scope.
Infix "*" := nmul : num_scope.
Infix "<?" := nlt : num_scope.

(** *** binary64 *)

Definition float_of_Z (z : Z) : float :=
  match z with
  | Z0 => PrimFloat.zero
  | Zpos _ => PrimFloat.of_uint63 (Uint63.of_Z z)
  | Zneg p => PrimFloat.opp (PrimFloat.of_uint63 (Uint63.of_Z (Zpos p)))
  end.

(** A decimal literal [n/d] denotes the binary64 value nearest to it; for the
    literals of the source ([n] and [d] below 2^53) this is the correctly
    rounded quotient ([float_literals] below compares with the parser). *)
Definition float_lit (q : Q) : float :=
  PrimFloat.div (float_of_Z (Qnum q)) (float_of_Z (Zpos (Qden q))).

Definition is_pos_zero (x : float) : bool :=
  PrimFloat.is_zero x && negb (PrimFloat.get_sign x).

Definition is_neg_zero (x : float) : bool :=
  PrimFloat.is_zero x && PrimFloat.get_sign x.

(** [Math.max] as ECMAScript defines it: start from -Infinity, return NaN as
    soon as an argument is NaN, prefer +0 over -0, else keep the larger. *)
Fixpoint js_max_from (highest : float) (l : list float) : float :=
  match l with
  | [] => highest
  | x :: l' =>
      if PrimFloat.is_nan x then PrimFloat.nan
      else if is_pos_zero x && is_neg_zero highest then js_max_from x l'
      else if PrimFloat.ltb highest x then js_max_from x l'
      else js_max_from highest l'
  end.

Definition js_Math_max (l : list float) : float :=
  js_max_from PrimFloat.neg_infinity l.

#[export] Instance js_number : Number float := {|
  lit := float_lit;
  nadd := PrimFloat.add;
  nsub := PrimFloat.sub;
  nmul := PrimFloat.mul;
  Math_abs := PrimFloat.abs;
  nlt := PrimFloat.ltb;
  Math_max := js_Math_max
|}.

(** *** exact arithmetic *)

Definition Rltb (x y : R) : bool := if Rlt_dec x y then true else false.

Definition Rmax_list (l : list R) : R :=
  match l with
  | [] => 0%R
  | x :: l' => fold_left Rmax l' x
  end.

#[export] Instance exact_number : Number R := {|
  lit := Q2R;
  nadd := Rplus;
  nsub := Rminus;
  nmul := Rmult;
  Math_abs := Rabs;
  nlt := Rltb;
  Math_max := Rmax_list
|}.

(** ** Outcomes *)

(** How an evaluation can stop short of a value.  [TypeError] is what the
    JavaScript runtime throws when [formula!(context)] calls an absent
    formula.  [UndefinedInput] marks a read [finalProduction.materialCost!]
    of an absent key: TypeScript's [!] asserts that this does not happen and
    [resolveInputs_defined] proves it. *)
Inductive Abort : Type :=
  | TypeError
  | UndefinedInput.

Definition exceptionName (e : Abort) : option string :=
  match e with
  | TypeError => Some "TypeError"
  | UndefinedInput => None
  end.

Inductive result (T : Type) : Type :=
  | Ok (t : T)
  | Throw (e : Abort).

Arguments Ok {T} t.
Arguments Throw {T} e.

#[export] Instance result_ret : MRet result := fun _ t => Ok t.

#[export] Instance result_bind : MBind result := fun _ _ k r =>
  match r with
  | Ok t => k t
  | Throw e => Throw e
  end.

#[export] Instance result_fmap : FMap result := fun _ _ f r =>
  match r with
  | Ok t => Ok (f t)
  | Throw e => Throw e
  end.

Definition nonNull {T : Type} (o : option T) (e : Abort) : result T :=
  match o with
  | Some t => Ok t
  | None => Throw e
  end.

(** ** Data model *)

Inductive AttributeType : Type := input | calculated.

Record SimulationContext (A : Type) : Type := {
  materialCost : A;
  energyCost : A;
  disposalCost : A;
  co2Cost : A;
  transportCost : A;
  logisticsCost : A;
  ecoFees : A
}.

Arguments materialCost {A} _.
Arguments energyCost {A} _.
Arguments disposalCost {A} _.
Arguments co2Cost {A} _.
Arguments transportCost {A} _.
Arguments logisticsCost {A} _.
Arguments ecoFees {A} _.

Record Attribute (A : Type) : Type := {
  type : AttributeType;
  value : option A;
  formula : option (SimulationContext A -> A)
}.

Arguments type {A} _.
Arguments value {A} _.
Arguments formula {A} _.

(** A block keeps its attributes in declaration order. *)
Definition Block (A : Type) : Type := list (string * Attribute A).

(** Both [Blocks] and [Scenario] are objects with the two keys [Production]
    and [Logistics]. *)
Record PerBlock (T : Type) : Type := {
  Production : T;
  Logistics : T
}.

Arguments Production {T} _.
Arguments Logistics {T} _.

Definition Blocks (A : Type) : Type := PerBlock (Block A).

(** [Scenario]: per block an optional partial record of numbers, keyed by
    attribute name.  A key that is present carries a number. *)
Definition Scenario (A : Type) : Type := PerBlock (option (gmap string A)).

(** The first defined value of a precedence chain. *)
Fixpoint firstDefined {A : Type} (chain : list (option A)) : option A :=
  match chain with
  | [] => None
  | Some v :: _ => Some v
  | None :: chain' => firstDefined chain'
  end.

Section Model.
Context {A : Type} {N : Number A}.
Local Open Scope num_scope.

(** ** The model definition *)

Definition blocks : Blocks A := {|
  Production := [
    ("materialCost",
      {| type := input; value := Some (lit 120); formula := None |});
    ("energyCost",
      {| type := input; value := Some (lit 60); formula := None |});
    ("disposalCost",
      {| type := calculated; value := None;
         formula := Some (fun ctx => materialCost ctx * lit 0.8 + co2Cost ctx) |});
    ("co2Cost",
      {| type := calculated; value := None;
         formula := Some (fun ctx =>
           energyCost ctx * lit 0.1 + disposalCost ctx * lit 0.05) |})
  ];
  Logistics := [
    ("transportCost",
      {| type := input; value := Some (lit 35); formula := None |});
    ("logisticsCost",
      {| type := calculated; value := None;
         formula := Some (fun ctx => transportCost ctx + ecoFees ctx) |});
    ("ecoFees",
      {| type := calculated; value := None;
         formula := Some (fun ctx =>
           logisticsCost ctx * lit 0.1 + co2Cost ctx * lit 0.05) |})
  ]
|}.

Definition Base : Scenario A := {|
  Production := Some {[ "materialCost" := lit 120; "energyCost" := lit 60 ]};
  Logistics := Some {[ "transportCost" := lit 35 ]}
|}.

Definition HighEnergyPrices : Scenario A := {|
  Production := Some {[ "energyCost" := lit 90 ]};
  Logistics := Some {[ "transportCost" := lit 40 ]}
|}.

(** The catalog, looked up by its own keys.  (A name that JavaScript finds
    on the prototype of the object, such as "constructor", yields a value
    without [Production] or [Logistics], hence the same empty scenario as a
    name that is not found at all.) *)
Definition scenarios : gmap string (Scenario A) :=
  {[ "Base" := Base; "HighEnergyPrices" := HighEnergyPrices ]}.

(** ** Object helpers *)

(** [o || {}] on an optional object. *)
Definition orEmpty (o : option (gmap string A)) : gmap string A :=
  default ∅ o.

(** [{...a, ...b, ...c}]: later spreads overwrite earlier ones. *)
Definition spread3 (a b c : gmap string A) : gmap string A := c ∪ (b ∪ a).

(** [block.name] on a block of the model. *)
Fixpoint attributeOf (b : Block A) (name : string) : option (Attribute A) :=
  match b with
  | [] => None
  | (k, a) :: b' => if String.eqb k name then Some a else attributeOf b' name
  end.

(** [block.name.formula!(ctx)]: calling an absent formula throws. *)
Definition callFormula (b : Block A) (name : string)
    (ctx : SimulationContext A) : result A :=
  match attributeOf b name with
  | Some a =>
      match formula a with
      | Some f => Ok (f ctx)
      | None => Throw TypeError
      end
  | None => Throw TypeError
  end.

(** In-place assignments [context.x = v] to the calculated fields. *)
Definition set_disposalCost (v : A) (c : SimulationContext A) :=
  {| materialCost := materialCost c; energyCost := energyCost c;
     disposalCost := v; co2Cost := co2Cost c;
     transportCost := transportCost c; logisticsCost := logisticsCost c;
     ecoFees := ecoFees c |}.

Definition set_co2Cost (v : A) (c : SimulationContext A) :=
  {| materialCost := materialCost c; energyCost := energyCost c;
     disposalCost := disposalCost c; co2Cost := v;
     transportCost := transportCost c; logisticsCost := logisticsCost c;
     ecoFees := ecoFees c |}.

Definition set_logisticsCost (v : A) (c : SimulationContext A) :=
  {| materialCost := materialCost c; energyCost := energyCost c;
     disposalCost := disposalCost c; co2Cost := co2Cost c;
     transportCost := transportCost c; logisticsCost := v;
     ecoFees := ecoFees c |}.

Definition set_ecoFees (v : A) (c : SimulationContext A) :=
  {| materialCost := materialCost c; energyCost := energyCost c;
     disposalCost := disposalCost c; co2Cost := co2Cost c;
     transportCost := transportCost c; logisticsCost := logisticsCost c;
     ecoFees := v |}.

(** ** runSimulation *)

(** The part of [runSimulation] before the loop: merge Base, the named
    scenario and the manual overrides, and build the initial context. *)
Definition resolveInputs (scenarioName : string)
    (manualOverrides : option (Scenario A)) : result (SimulationContext A) :=
  let baseProduction := orEmpty (Production Base) in
  let baseLogistics := orEmpty (Logistics Base) in
  let scenario := default {| Production := None; Logistics := None |}
                          (scenarios !! scenarioName) in
  let scenarioProduction := orEmpty (Production scenario) in
  let scenarioLogistics := orEmpty (Logistics scenario) in
  let finalProduction :=
    spread3 baseProduction scenarioProduction
            (orEmpty (manualOverrides ≫= Production)) in
  let finalLogistics :=
    spread3 baseLogistics scenarioLogistics
            (orEmpty (manualOverrides ≫= Logistics)) in
  m ← nonNull (finalProduction !! "materialCost") UndefinedInput;
  e ← nonNull (finalProduction !! "energyCost") UndefinedInput;
  t ← nonNull (finalLogistics !! "transportCost") UndefinedInput;
  Ok {| materialCost := m; energyCost := e; transportCost := t;
        disposalCost := lit 0; co2Cost := lit 0;
        logisticsCost := lit 0; ecoFees := lit 0 |}.

(** One body of the loop up to the convergence test: the four assignments,
    each reading the context as the previous ones left it. *)
Definition pass (model : Blocks A) (context : SimulationContext A)
    : result (SimulationContext A) :=
  d ← callFormula (Production model) "disposalCost" context;
  let context := set_disposalCost d context in
  c ← callFormula (Production model) "co2Cost" context;
  let context := set_co2Cost c context in
  l ← callFormula (Logistics model) "logisticsCost" context;
  let context := set_logisticsCost l context in
  f ← callFormula (Logistics model) "ecoFees" context;
  Ok (set_ecoFees f context).

Definition deltas (prev context : SimulationContext A) : list A :=
  [ Math_abs (disposalCost context - disposalCost prev);
    Math_abs (co2Cost context - co2Cost prev);
    Math_abs (logisticsCost context - logisticsCost prev);
    Math_abs (ecoFees context - ecoFees prev) ].

(** [Math.max(...deltas) < threshold]. *)
Definition converged (threshold : A) (prev context : SimulationContext A)
    : bool :=
  Math_max (deltas prev context) <? threshold.

(** The [for] loop with [remaining] iterations left. *)
Fixpoint relax (model : Blocks A) (threshold : A) (remaining : nat)
    (context : SimulationContext A) : result (SimulationContext A) :=
  match remaining with
  | O => Ok context
  | S remaining' =>
      let prev := context in
      context' ← pass model context;
      if converged threshold prev context' then Ok context'
      else relax model threshold remaining' context'
  end.

(** [runSimulation] with the module constant [blocks] as a parameter.  The
    iteration cap is taken to be an integer, a count of passes:
    [i < maxIterations] from [i = 0] then allows [Z.to_nat maxIterations]
    iterations.  (A cap that is not an integer the counter reaches, such as
    2.5 or Infinity, is outside this model.)  The [debug] flag only logs. *)
Definition runSimulationOn (model : Blocks A) (scenarioName : string)
    (maxIterations : Z) (threshold : A)
    (manualOverrides : option (Scenario A)) : result (SimulationContext A) :=
  context ← resolveInputs scenarioName manualOverrides;
  relax model threshold (Z.to_nat maxIterations) context.

Definition runSimulation := runSimulationOn blocks.

(** ** getDisplayRows *)

Definition getDisplayRows (ctx : SimulationContext A) : list (string * A) :=
  [ ("Material Cost", materialCost ctx);
    ("Energy Cost", energyCost ctx);
    ("Disposal Cost", disposalCost ctx);
    ("CO2 Cost", co2Cost ctx);
    ("Transport Cost", transportCost ctx);
    ("Logistics Cost", logisticsCost ctx);
    ("Eco Fees", ecoFees ctx) ].

(** ** Derived definitions used by the statements *)

(** The loop with its exit recorded: [Converged] when the [break] is taken,
    [Exhausted] when the iteration cap ends the loop.  [runSimulation]
    returns the context alone ([relaxExit_erase]). *)
Inductive Exit : Type := Converged | Exhausted.

Fixpoint relaxExit (model : Blocks A) (threshold : A) (remaining : nat)
    (context : SimulationContext A) : result (SimulationContext A * Exit) :=
  match remaining with
  | O => Ok (context, Exhausted)
  | S remaining' =>
      let prev := context in
      context' ← pass model context;
      if converged threshold prev context' then Ok (context', Converged)
      else relaxExit model threshold remaining' context'
  end.

Definition runSimulationExit (scenarioName : string) (maxIterations : Z)
    (threshold : A) (manualOverrides : option (Scenario A))
    : result (SimulationContext A * Exit) :=
  context ← resolveInputs scenarioName manualOverrides;
  relaxExit blocks threshold (Z.to_nat maxIterations) context.

(** One pass over the shipped model with the four formulas inlined
    ([pass_blocks] shows it is what [pass blocks] returns). *)
Definition sweep (c : SimulationContext A) : SimulationContext A :=
  let d := materialCost c * lit 0.8 + co2Cost c in
  let k := energyCost c * lit 0.1 + d * lit 0.05 in
  let l := transportCost c + ecoFees c in
  let f := l * lit 0.1 + k * lit 0.05 in
  {| materialCost := materialCost c; energyCost := energyCost c;
     disposalCost := d; co2Cost := k;
     transportCost := transportCost c; logisticsCost := l; ecoFees := f |}.

(** The context after [k] passes, and the largest change made by pass [k]
    (passes are numbered from 1). *)
Definition afterPasses (k : nat) (c : SimulationContext A)
    : SimulationContext A :=
  Nat.iter k sweep c.

Definition passDelta (c : SimulationContext A) (k : nat) : A :=
  Math_max (deltas (afterPasses (k - 1) c) (afterPasses k c)).

(** Jacobi relaxation, for contrast: every formula reads the snapshot. *)
Definition jacobi (model : Blocks A) (context : SimulationContext A)
    : result (SimulationContext A) :=
  d ← callFormula (Production model) "disposalCost" context;
  c ← callFormula (Production model) "co2Cost" context;
  l ← callFormula (Logistics model) "logisticsCost" context;
  f ← callFormula (Logistics model) "ecoFees" context;
  Ok (set_ecoFees f (set_logisticsCost l
        (set_co2Cost c (set_disposalCost d context)))).

(** The names of the calculated attributes of a block, as declared. *)
Definition calculatedNames (b : Block A) : list string :=
  List.map fst
    (List.filter
       (fun na => match type (snd na) with calculated => true | input => false end)
       b).

(** Declaration order across blocks: Production, then Logistics. *)
Definition declarationOrder (model : Blocks A) : list (Block A * string) :=
  List.map (pair (Production model)) (calculatedNames (Production model)) ++
  List.map (pair (Logistics model)) (calculatedNames (Logistics model)).

(** [context[name] = v] for the name of a calculated attribute. *)
Definition assign (name : string) (v : A) (c : SimulationContext A)
    : SimulationContext A :=
  if String.eqb name "disposalCost" then set_disposalCost v c
  else if String.eqb name "co2Cost" then set_co2Cost v c
  else if String.eqb name "logisticsCost" then set_logisticsCost v c
  else if String.eqb name "ecoFees" then set_ecoFees v c
  else c.

(** Recompute the listed attributes one after the other, each from the
    context as it stands, writing the result back before the next. *)
Fixpoint recomputeInOrder (order : list (Block A * string))
    (context : SimulationContext A) : result (SimulationContext A) :=
  match order with
  | [] => Ok context
  | (b, name) :: order' =>
      v ← callFormula b name context;
      recomputeInOrder order' (assign name v context)
  end.

(** The formula stored for [name] in block [b], if any. *)
Definition formulaOf (b : Block A) (name : string)
    : option (SimulationContext A -> A) :=
  attributeOf b name ≫= formula.

(** The baseline declared on an input attribute of the model. *)
Definition declaredBaseline (b : Block A) (name : string) : option A :=
  attributeOf b name ≫= value.

(** The manual override a caller supplies for [name] in a block. *)
Definition overrideOf (manualOverrides : option (Scenario A))
    (block : Scenario A -> option (gmap string A)) (name : string) : option A :=
  orEmpty (manualOverrides ≫= block) !! name.

(** The value a catalog scenario gives to [name] in a block. *)
Definition scenarioValue (scenarioName : string)
    (block : Scenario A -> option (gmap string A)) (name : string) : option A :=
  orEmpty (scenarios !! scenarioName ≫= block) !! name.

(** Manual overrides with further entries spread over each block. *)
Definition withEntries (extraProduction extraLogistics : gmap string A)
    (manualOverrides : option (Scenario A)) : option (Scenario A) :=
  Some {|
    Production :=
      Some (extraProduction ∪ orEmpty (manualOverrides ≫= Production));
    Logistics :=
      Some (extraLogistics ∪ orEmpty (manualOverrides ≫= Logistics))
  |}.

(** The block [b] with the formula of attribute [name] left out. *)
Definition withoutFormula (name : string) (b : Block A) : Block A :=
  List.map
    (fun na =>
       if String.eqb (fst na) name
       then (fst na, {| type := type (snd na); value := value (snd na);
                        formula := None |})
       else na)
    b.

(** The value the precedence chain gives to the input attribute [name]:
    manual override, then the named scenario, then [Base], then the baseline
    declared in the model. *)
Definition resolvedInput (scenarioName : string)
    (manualOverrides : option (Scenario A))
    (block : forall T : Type, PerBlock T -> T) (name : string) : option A :=
  firstDefined [
    overrideOf manualOverrides (block _) name;
    scenarioValue scenarioName (block _) name;
    scenarioValue "Base" (block _) name;
    declaredBaseline (block _ blocks) name ].

End Model.

(** What the convergence test needs of the arithmetic: when the maximum of a
    list is below a bound, so is every element. *)
Class NumberLaws (A : Type) `{Number A} : Prop := {
  Math_max_lt : forall (l : list A) (t x : A),
    nlt (Math_max l) t = true -> In x l -> nlt x t = true
}.

(** The calculated attribute names. *)
Definition calculatedKeys : gset string :=
  {[ "disposalCost"; "co2Cost"; "logisticsCost"; "ecoFees" ]}.

(** ** The comparison page ([App]) *)

(** [ScenarioName = keyof typeof scenarios]: the page keeps its selection in
    a state of type [ScenarioName[]], which only ever holds keys of the
    catalog. *)
Inductive ScenarioName : Type := BaseKey | HighEnergyPricesKey.

#[export] Instance ScenarioName_eq_dec : EqDecision ScenarioName.
Proof. solve_decision. Defined.

Definition keyOf (s : ScenarioName) : string :=
  match s with
  | BaseKey => "Base"
  | HighEnergyPricesKey => "HighEnergyPrices"
  end.

(** [Object.keys(scenarios)], in insertion order. *)
Definition scenarioKeys : list ScenarioName := [BaseKey; HighEnergyPricesKey].

(** [handleScenarioToggle]: the state update
    [prev.includes(scenario) ? prev.filter(s => s !== scenario)
                             : [...prev, scenario]]. *)
Definition handleScenarioToggle (scenario : ScenarioName)
    (prev : list ScenarioName) : list ScenarioName :=
  if bool_decide (scenario ∈ prev)
  then filter (fun s => s <> scenario) prev
  else prev ++ [scenario].

Section App.
Context {A : Type} {N : Number A}.
Local Open Scope num_scope.

(** The initial [inputs] state: the three values of the Base scenario. *)
Definition initialInputs : result (gmap string A) :=
  m ← nonNull (orEmpty (Production Base) !! "materialCost") UndefinedInput;
  e ← nonNull (orEmpty (Production Base) !! "energyCost") UndefinedInput;
  t ← nonNull (orEmpty (Logistics Base) !! "transportCost") UndefinedInput;
  Ok {[ "materialCost" := m; "energyCost" := e; "transportCost" := t ]}.

(** [onInputChange]: the state update [{ ...prev, [key]: val }]. *)
Definition onInputChange (key : string) (val : A) (prev : gmap string A)
    : gmap string A :=
  <[key := val]> prev.

(** [if (key in obj) { obj[key] = inputs[key]; }].  Reading an absent
    input is marked [UndefinedInput] ([reachable_inputs_defined] shows that
    the page never gets there). *)
Definition assignIfPresent (key : string) (inputs obj : gmap string A)
    : result (gmap string A) :=
  match obj !! key with
  | Some _ =>
      v ← nonNull (inputs !! key) UndefinedInput;
      Ok (<[key := v]> obj)
  | None => Ok obj
  end.

(** The body of [selectedScenarios.map(...)]: copy the scenario's own
    values, for Base replace them by the inputs of the page, run the
    simulation with these as manual overrides and project the result. *)
Definition scenarioRows (inputs : gmap string A) (scenario : ScenarioName)
    : result (list (string * A)) :=
  sc ← nonNull (scenarios !! keyOf scenario) TypeError;
  let prod := orEmpty (Production sc) in
  let logi := orEmpty (Logistics sc) in
  prod ← (if decide (scenario = BaseKey)
          then p ← assignIfPresent "materialCost" inputs prod;
               assignIfPresent "energyCost" inputs p
          else Ok prod);
  logi ← (if decide (scenario = BaseKey)
          then assignIfPresent "transportCost" inputs logi
          else Ok logi);
  ctx ← runSimulation (keyOf scenario) 100 (lit 0.001)
          (Some {| Production := Some prod; Logistics := Some logi |});
  Ok (getDisplayRows ctx).

Fixpoint scenarioResults (inputs : gmap string A)
    (selectedScenarios : list ScenarioName)
    : result (list (list (string * A))) :=
  match selectedScenarios with
  | [] => Ok []
  | scenario :: rest =>
      rows ← scenarioRows inputs scenario;
      others ← scenarioResults inputs rest;
      Ok (rows :: others)
  end.

(** [scenarioResults[0]?.map((row) => row.label) || []]. *)
Definition attributeLabels (results : list (list (string * A)))
    : list string :=
  match results with
  | [] => []
  | rows :: _ => List.map fst rows
  end.

(** A property of a chart entry: the label under "name", a number under
    each scenario key. *)
Inductive Cell : Type :=
  | Label (s : string)
  | Value (v : A).

(** [selectedScenarios.forEach((scenario, sIdx) =>
      entry[scenario] = scenarioResults[sIdx][idx].value)], from position
    [sIdx] on.  Reading past the end of either array is a TypeError. *)
Fixpoint fillEntry (results : list (list (string * A))) (idx sIdx : nat)
    (selectedScenarios : list ScenarioName) (entry : gmap string Cell)
    : result (gmap string Cell) :=
  match selectedScenarios with
  | [] => Ok entry
  | scenario :: rest =>
      rows ← nonNull (results !! sIdx) TypeError;
      row ← nonNull (rows !! idx) TypeError;
      fillEntry results idx (S sIdx) rest
        (<[keyOf scenario := Value (snd row)]> entry)
  end.

(** [attributeLabels.map((label, idx) => ...)], from position [idx] on. *)
Fixpoint chartEntries (selectedScenarios : list ScenarioName)
    (results : list (list (string * A))) (idx : nat) (labels : list string)
    : result (list (gmap string Cell)) :=
  match labels with
  | [] => Ok []
  | label :: labels' =>
      entry ← fillEntry results idx 0 selectedScenarios
                {[ "name" := Label label ]};
      entries ← chartEntries selectedScenarios results (S idx) labels';
      Ok (entry :: entries)
  end.

Definition chartData (inputs : gmap string A)
    (selectedScenarios : list ScenarioName)
    : result (list (gmap string Cell)) :=
  results ← scenarioResults inputs selectedScenarios;
  chartEntries selectedScenarios results 0 (attributeLabels results).

(** The states of [inputs] the page can reach: the initial one and those
    obtained from it by [onInputChange]. *)
Inductive reachableInputs : gmap string A -> Prop :=
  | reachable_initial inputs :
      initialInputs = Ok inputs -> reachableInputs inputs
  | reachable_change key val inputs :
      reachableInputs inputs -> reachableInputs (onInputChange key val inputs).

(** The three inputs the page reads are present in the state. *)
Definition inputsDefined (inputs : gmap string A) : Prop :=
  is_Some (inputs !! "materialCost") /\
  is_Some (inputs !! "energyCost") /\
  is_Some (inputs !! "transportCost").

(** The labels of the rows, in presentation order. *)
Definition displayLabels : list string :=
  [ "Material Cost"; "Energy Cost"; "Disposal Cost"; "CO2 Cost";
    "Transport Cost"; "Logistics Cost"; "Eco Fees" ].

End App.

(** ** Order of binary64 numbers, on their specification *)

(** [x] is a number not above the number [r]. *)
Definition SFge (r x : spec_float) : Prop :=
  SFcompare r x = Some Eq \/ SFcompare r x = Some Gt.

(** NaN or an infinity. *)
Definition SFnonfinite (f : spec_float) : bool :=
  match f with
  | S754_nan | S754_infinity _ => true
  | S754_zero _ | S754_finite _ _ _ => false
  end.

(** NaN or +Infinity: what [Math.abs] makes of a value that is not finite. *)
Definition SFunbounded (f : spec_float) : bool :=
  match f with
  | S754_nan | S754_infinity false => true
  | _ => false
  end.

Ltac compare_cases :=
  repeat match goal with
  | |- context [Z.compare ?a ?b] => destruct (Z.compare_spec a b)
  | H : context [Z.compare ?a ?b] |- _ => destruct (Z.compare_spec a b)
  | |- context [Pos.compare_cont Eq ?a ?b] =>
      change (Pos.compare_cont Eq a b) with (Pos.compare a b);
      destruct (Pos.compare_spec a b)
  | H : context [Pos.compare_cont Eq ?a ?b] |- _ =>
      change (Pos.compare_cont Eq a b) with (Pos.compare a b) in H;
      destruct (Pos.compare_spec a b)
  end.

Ltac split_floats :=
  repeat match goal with
  | f : spec_float |- _ => destruct f as [?s|?s| |?s ?m ?e]
  end;
  simpl;
  repeat match goal with s : bool |- _ => destruct s end;
  simpl.

(** Split a conjunction of closed equations and evaluate each side. *)
Ltac evaluate :=
  repeat match goal with |- _ /\ _ => split end;
  vm_compute; reflexivity.

(** ** Sample inputs *)

Module Samples.
Local Open Scope float_scope.

(** The initial context of the Base scenario without overrides. *)
Definition baseInitial : SimulationContext float :=
  {| materialCost := 120; energyCost := 60; transportCost := 35;
     disposalCost := 0; co2Cost := 0; logisticsCost := 0; ecoFees := 0 |}.

(** What [runSimulation("Base", 100, 0.001)] returns (after six passes). *)
Definition baseConverged : SimulationContext float :=
  {| materialCost := 120; energyCost := 60; transportCost := 35;
     disposalCost := 107.36841749999999; co2Cost := 11.368420875;
     logisticsCost := 39.520417125000002;
     ecoFees := 4.5204627562500006 |}.

(** The Base scenario with the energy cost set to 1000 by the caller. *)
Definition energy1000 : option (Scenario float) :=
  Some {| Production := Some {[ "energyCost" := 1000 ]}; Logistics := None |}.

Definition energy1000Initial : SimulationContext float :=
  {| materialCost := 120; energyCost := 1000; transportCost := 35;
     disposalCost := 0; co2Cost := 0; logisticsCost := 0; ecoFees := 0 |}.

Definition energy1000FirstPass : SimulationContext float :=
  {| materialCost := 120; energyCost := 1000; transportCost := 35;
     disposalCost := 96; co2Cost := 104.8;
     logisticsCost := 35; ecoFees := 8.7400000000000002 |}.

(** A manual override that is not a finite number. *)
Definition materialNaN : option (Scenario float) :=
  Some {| Production := Some {[ "materialCost" := nan ]}; Logistics := None |}.

(** Manual overrides naming calculated attributes only. *)
Definition calculatedProduction : gmap string float :=
  {[ "disposalCost" := 5; "co2Cost" := 7 ]}.

Definition calculatedLogistics : gmap string float :=
  {[ "ecoFees" := 11 ]}.

(** The shipped model with the formula of disposalCost left out. *)
Definition blocksNoDisposalFormula : Blocks float :=
  {| Production := withoutFormula "disposalCost" (Production blocks);
     Logistics := Logistics blocks |}.


(** A manual override near the largest finite number. *)
Definition transportHuge : option (Scenario float) :=
  Some {| Production := None;
          Logistics :=
            Some {[ "transportCost" := 1.7976931348623157e308 ]} |}.

Definition transportHugeInitial : SimulationContext float :=
  {| materialCost := 120; energyCost := 60;
     transportCost := 1.7976931348623157e308;
     disposalCost := 0; co2Cost := 0; logisticsCost := 0; ecoFees := 0 |}.

(** A manual override that is an infinity. *)
Definition transportInfinity : option (Scenario float) :=
  Some {| Production := None;
          Logistics := Some {[ "transportCost" := infinity ]} |}.

Definition transportInfinityInitial : SimulationContext float :=
  {| materialCost := 120; energyCost := 60; transportCost := infinity;
     disposalCost := 0; co2Cost := 0; logisticsCost := 0; ecoFees := 0 |}.

(** The Base initial context beside another Logistics block. *)
Definition baseInitialOtherLogistics : SimulationContext float :=
  {| materialCost := 120; energyCost := 60; transportCost := 999;
     disposalCost := 0; co2Cost := 0; logisticsCost := 5; ecoFees := 1 |}.

(** A state of the input fields of the page. *)
Definition pageInputs : gmap string float :=
  {[ "materialCost" := 100; "energyCost" := 50; "transportCost" := 20 ]}.

(** The initial state of the input fields. *)
Definition pageInitialInputs : gmap string float :=
  {[ "materialCost" := 120; "energyCost" := 60; "transportCost" := 35 ]}.

End Samples.

(** * Properties *)

(** The decimal literals of the source, as the float parser reads them. *)
Lemma float_literals :
  List.map float_lit [0.8; 0.1; 0.05; 0.001; 0; 120; 60; 35; 90; 40]%Q =
  [0.8; 0.1; 0.05; 0.001; 0; 120; 60; 35; 90; 40]%float.
Proof. reflexivity. Qed.

Section Structural.
Context {A : Type} {N : Number A}.
Local Open Scope num_scope.

Implicit Types (ctx prev : SimulationContext A) (ov : option (Scenario A)).

(** ** The pass *)

Lemma pass_blocks ctx : pass blocks ctx = Ok (sweep ctx).
Proof. reflexivity. Qed.

Lemma sweep_inputs ctx :
  materialCost (sweep ctx) = materialCost ctx /\
  energyCost (sweep ctx) = energyCost ctx /\
  transportCost (sweep ctx) = transportCost ctx.
Proof. repeat split. Qed.

Lemma afterPasses_S k ctx : afterPasses (S k) ctx = sweep (afterPasses k ctx).
Proof. reflexivity. Qed.

Lemma afterPasses_shift k ctx :
  afterPasses (S k) ctx = afterPasses k (sweep ctx).
Proof.
  unfold afterPasses. induction k as [|k IH]; simpl; [reflexivity|].
  now rewrite <- IH.
Qed.

Lemma afterPasses_inputs k ctx :
  materialCost (afterPasses k ctx) = materialCost ctx /\
  energyCost (afterPasses k ctx) = energyCost ctx /\
  transportCost (afterPasses k ctx) = transportCost ctx.
Proof.
  induction k as [|k IH]; [repeat split|].
  rewrite afterPasses_S. destruct IH as (Hm & He & Ht).
  destruct (sweep_inputs (afterPasses k ctx)) as (-> & -> & ->). auto.
Qed.

(** ** The loop *)

(** The loop returns what the instrumented loop returns, minus the exit. *)
Lemma relaxExit_erase model threshold n ctx :
  relax model threshold n ctx = fst <$> relaxExit model threshold n ctx.
Proof.
  revert ctx. induction n as [|n IH]; intros ctx; simpl; [reflexivity|].
  destruct (pass model ctx) as [ctx'|e]; simpl; [|reflexivity].
  destruct (converged threshold ctx ctx'); [reflexivity|apply IH].
Qed.

Lemma relaxExit_step threshold n ctx :
  relaxExit blocks threshold (S n) ctx =
    if converged threshold ctx (sweep ctx) then Ok (sweep ctx, Converged)
    else relaxExit blocks threshold n (sweep ctx).
Proof. reflexivity. Qed.

(** On the shipped model the loop always ends with a context: the one after
    some number of passes not exceeding the cap. *)
Lemma relaxExit_blocks threshold n ctx :
  exists k x, (k <= n)%nat /\
    relaxExit blocks threshold n ctx = Ok (afterPasses k ctx, x).
Proof.
  revert ctx. induction n as [|n IH]; intros ctx.
  - exists O, Exhausted. split; [lia|reflexivity].
  - rewrite relaxExit_step. destruct (converged threshold ctx (sweep ctx)).
    + exists 1%nat, Converged. split; [lia|reflexivity].
    + destruct (IH (sweep ctx)) as (k & x & Hk & ->).
      exists (S k), x. split; [lia|]. now rewrite afterPasses_shift.
Qed.

Lemma relax_blocks threshold n ctx :
  exists k, (k <= n)%nat /\ relax blocks threshold n ctx = Ok (afterPasses k ctx).
Proof.
  destruct (relaxExit_blocks threshold n ctx) as (k & x & Hk & H).
  exists k. split; [exact Hk|]. now rewrite relaxExit_erase, H.
Qed.

(** ** Resolution of the inputs *)

(** The three reads of the merged objects, spelled out. *)
Lemma resolveInputs_reads scenarioName ov :
  resolveInputs scenarioName ov =
    m ← nonNull (overrideOf ov Production "materialCost" ∪
                 (scenarioValue scenarioName Production "materialCost" ∪
                  Some (lit 120))) UndefinedInput;
    e ← nonNull (overrideOf ov Production "energyCost" ∪
                 (scenarioValue scenarioName Production "energyCost" ∪
                  Some (lit 60))) UndefinedInput;
    t ← nonNull (overrideOf ov Logistics "transportCost" ∪
                 (scenarioValue scenarioName Logistics "transportCost" ∪
                  Some (lit 35))) UndefinedInput;
    Ok {| materialCost := m; energyCost := e; transportCost := t;
          disposalCost := lit 0; co2Cost := lit 0;
          logisticsCost := lit 0; ecoFees := lit 0 |}.
Proof.
  unfold resolveInputs, spread3, overrideOf, scenarioValue.
  rewrite !lookup_union.
  destruct (scenarios !! scenarioName) as [sc|]; reflexivity.
Qed.

(** ** Order of recomputation *)

(** C2. Within a pass the four calculated attributes are recomputed in
    declaration order (disposalCost, co2Cost, logisticsCost, ecoFees), each
    from the context as the earlier assignments of the same pass left it:
    co2Cost reads the new disposalCost, ecoFees reads the new logisticsCost
    and the new co2Cost, while disposalCost (and logisticsCost) read the
    co2Cost (and ecoFees) the pass started with. *)
Theorem pass_gauss_seidel ctx :
  List.map snd (declarationOrder (blocks (A:=A))) =
    ["disposalCost"; "co2Cost"; "logisticsCost"; "ecoFees"] /\
  pass blocks ctx = recomputeInOrder (declarationOrder blocks) ctx /\
  exists ctx', pass blocks ctx = Ok ctx' /\
    disposalCost ctx' = materialCost ctx * lit 0.8 + co2Cost ctx /\
    co2Cost ctx' = energyCost ctx * lit 0.1 + disposalCost ctx' * lit 0.05 /\
    logisticsCost ctx' = transportCost ctx + ecoFees ctx /\
    ecoFees ctx' = logisticsCost ctx' * lit 0.1 + co2Cost ctx' * lit 0.05.
Proof.
  split; [reflexivity|]. split; [reflexivity|].
  exists (sweep ctx). repeat split.
Qed.

(** ** Override precedence *)

Lemma resolveInputs_defined scenarioName ov :
  exists ctx0, resolveInputs scenarioName ov = Ok ctx0 /\
    Some (materialCost ctx0) =
      resolvedInput scenarioName ov (@Production) "materialCost" /\
    Some (energyCost ctx0) =
      resolvedInput scenarioName ov (@Production) "energyCost" /\
    Some (transportCost ctx0) =
      resolvedInput scenarioName ov (@Logistics) "transportCost" /\
    disposalCost ctx0 = lit 0 /\ co2Cost ctx0 = lit 0 /\
    logisticsCost ctx0 = lit 0 /\ ecoFees ctx0 = lit 0.
Proof.
  rewrite resolveInputs_reads. unfold resolvedInput.
  change (scenarioValue "Base" (@Production _) "materialCost")
    with (Some (lit (A:=A) 120)).
  change (scenarioValue "Base" (@Production _) "energyCost")
    with (Some (lit (A:=A) 60)).
  change (scenarioValue "Base" (@Logistics _) "transportCost")
    with (Some (lit (A:=A) 35)).
  destruct (overrideOf ov Production "materialCost"),
    (scenarioValue scenarioName Production "materialCost"),
    (overrideOf ov Production "energyCost"),
    (scenarioValue scenarioName Production "energyCost"),
    (overrideOf ov Logistics "transportCost"),
    (scenarioValue scenarioName Logistics "transportCost");
    eexists; repeat split.
Qed.

Lemma runSimulation_afterPasses scenarioName n threshold ov ctx0 :
  resolveInputs scenarioName ov = Ok ctx0 ->
  exists k, (k <= Z.to_nat n)%nat /\
    runSimulation scenarioName n threshold ov = Ok (afterPasses k ctx0).
Proof.
  intros H. unfold runSimulation, runSimulationOn. rewrite H.
  apply relax_blocks.
Qed.

(** C3. Each input attribute enters the context with the value chosen by
    the precedence manual override > named scenario > Base > declared
    baseline, and that is the value the returned context carries whatever
    the iteration cap and the threshold. *)
Theorem input_precedence scenarioName ov :
  exists ctx0, resolveInputs scenarioName ov = Ok ctx0 /\
    Some (materialCost ctx0) =
      resolvedInput scenarioName ov (@Production) "materialCost" /\
    Some (energyCost ctx0) =
      resolvedInput scenarioName ov (@Production) "energyCost" /\
    Some (transportCost ctx0) =
      resolvedInput scenarioName ov (@Logistics) "transportCost" /\
    forall maxIterations threshold, exists ctx,
      runSimulation scenarioName maxIterations threshold ov = Ok ctx /\
      materialCost ctx = materialCost ctx0 /\
      energyCost ctx = energyCost ctx0 /\
      transportCost ctx = transportCost ctx0.
Proof.
  destruct (resolveInputs_defined scenarioName ov)
    as (ctx0 & H0 & Hm & He & Ht & _).
  exists ctx0. repeat (split; [assumption|]).
  intros n threshold.
  destruct (runSimulation_afterPasses scenarioName n threshold ov ctx0 H0)
    as (k & _ & Hk).
  exists (afterPasses k ctx0). split; [exact Hk|apply afterPasses_inputs].
Qed.

(** ** Unknown scenario *)

Lemma resolveInputs_unknown scenarioName ov :
  (scenarios (A:=A)) !! scenarioName = None ->
  resolveInputs scenarioName ov = resolveInputs "Base" ov.
Proof.
  intros H. rewrite !resolveInputs_reads.
  unfold scenarioValue. rewrite H.
  change ((scenarios (A:=A)) !! "Base") with (Some (Base (A:=A))).
  change (orEmpty (Some Base ≫= Production) !! "materialCost")
    with (Some (lit (A:=A) 120)).
  change (orEmpty (Some Base ≫= Production) !! "energyCost")
    with (Some (lit (A:=A) 60)).
  change (orEmpty (Some Base ≫= Logistics) !! "transportCost")
    with (Some (lit (A:=A) 35)).
  reflexivity.
Qed.

(** C4. A scenario identifier that is not a key of the catalog raises no
    error and gives exactly the context that "Base" gives with the same
    iteration cap, threshold and manual overrides. *)
Theorem unknown_scenario_is_Base scenarioName maxIterations threshold ov :
  (scenarios (A:=A)) !! scenarioName = None ->
  runSimulation scenarioName maxIterations threshold ov =
    runSimulation "Base" maxIterations threshold ov /\
  exists ctx, runSimulation scenarioName maxIterations threshold ov = Ok ctx.
Proof.
  intros H. split.
  - unfold runSimulation, runSimulationOn.
    now rewrite (resolveInputs_unknown _ _ H).
  - destruct (resolveInputs_defined scenarioName ov) as (ctx0 & H0 & _).
    destruct (runSimulation_afterPasses _ maxIterations threshold _ _ H0)
      as (k & _ & Hk).
    eauto.
Qed.

(** ** No iteration *)

(** C6. With maxIterations = 0 no pass is executed: the result is the
    initial context, whose input attributes hold the values resolved by the
    precedence chain and whose four calculated attributes are 0. *)
Theorem zero_iterations scenarioName threshold ov :
  exists ctx, runSimulation scenarioName 0 threshold ov = Ok ctx /\
    resolveInputs scenarioName ov = Ok ctx /\
    Some (materialCost ctx) =
      resolvedInput scenarioName ov (@Production) "materialCost" /\
    Some (energyCost ctx) =
      resolvedInput scenarioName ov (@Production) "energyCost" /\
    Some (transportCost ctx) =
      resolvedInput scenarioName ov (@Logistics) "transportCost" /\
    disposalCost ctx = lit 0 /\ co2Cost ctx = lit 0 /\
    logisticsCost ctx = lit 0 /\ ecoFees ctx = lit 0.
Proof.
  destruct (resolveInputs_defined scenarioName ov) as (ctx0 & H0 & H).
  exists ctx0. split; [|split; assumption].
  unfold runSimulation, runSimulationOn. now rewrite H0.
Qed.

(** ** Exhaustion *)

Lemma passDelta_1 threshold ctx :
  converged threshold ctx (sweep ctx) = (passDelta ctx 1 <? threshold).
Proof. reflexivity. Qed.

Lemma passDelta_shift ctx k :
  (1 <= k)%nat -> passDelta (sweep ctx) k = passDelta ctx (S k).
Proof.
  intros Hk. unfold passDelta.
  replace (S k - 1)%nat with (S (k - 1)) by lia.
  now rewrite !afterPasses_shift.
Qed.

Lemma relaxExit_exhausted threshold n : forall ctx,
  (forall k, (1 <= k <= n)%nat -> (passDelta ctx k <? threshold) = false) ->
  relaxExit blocks threshold n ctx = Ok (afterPasses n ctx, Exhausted).
Proof.
  induction n as [|n IH]; intros ctx Hall; [reflexivity|].
  rewrite relaxExit_step, passDelta_1, (Hall 1%nat) by lia.
  rewrite IH, afterPasses_shift; [reflexivity|].
  intros k Hk. rewrite passDelta_shift by lia. apply Hall. lia.
Qed.

(** C5. When none of the maxIterations passes brings the largest change
    strictly below the threshold, no error is raised and the context the
    last pass computed is returned: a bare seven-field context, the exit
    taken being dropped from the result. *)
Theorem exhausted_returns_last_pass scenarioName (maxIterations : nat)
    threshold ov ctx0 :
  resolveInputs scenarioName ov = Ok ctx0 ->
  (forall k, (1 <= k <= maxIterations)%nat ->
     (passDelta ctx0 k <? threshold) = false) ->
  runSimulationExit scenarioName (Z.of_nat maxIterations) threshold ov =
    Ok (afterPasses maxIterations ctx0, Exhausted) /\
  runSimulation scenarioName (Z.of_nat maxIterations) threshold ov =
    Ok (afterPasses maxIterations ctx0) /\
  length (getDisplayRows (afterPasses maxIterations ctx0)) = 7%nat.
Proof.
  intros H0 Hall.
  assert (HE : runSimulationExit scenarioName (Z.of_nat maxIterations)
                 threshold ov = Ok (afterPasses maxIterations ctx0, Exhausted)).
  { unfold runSimulationExit. rewrite H0, Nat2Z.id.
    now apply relaxExit_exhausted. }
  split; [exact HE|]. split; [|reflexivity].
  unfold runSimulationExit in HE. unfold runSimulation, runSimulationOn.
  rewrite H0 in *. simpl in *. now rewrite relaxExit_erase, HE.
Qed.

(** ** Overrides of calculated attributes *)

Lemma inputs_not_calculated :
  ("materialCost" ∉ calculatedKeys) /\ ("energyCost" ∉ calculatedKeys) /\
  ("transportCost" ∉ calculatedKeys).
Proof. repeat split; apply (bool_decide_unpack _); vm_compute; exact I. Qed.

Lemma not_calculated_None (extra : gmap string A) (name : string) :
  dom extra ⊆ calculatedKeys -> name ∉ calculatedKeys -> extra !! name = None.
Proof. intros Hd Hn. apply not_elem_of_dom. set_solver. Qed.

Lemma overrideOf_withEntries extraP extraL ov
    (block : Scenario A -> option (gmap string A)) (extra : gmap string A)
    (name : string) :
  orEmpty (withEntries extraP extraL ov ≫= block) =
    extra ∪ orEmpty (ov ≫= block) ->
  extra !! name = None ->
  overrideOf (withEntries extraP extraL ov) block name = overrideOf ov block name.
Proof.
  intros Hb Hn. unfold overrideOf. rewrite Hb, lookup_union, Hn.
  now destruct (orEmpty (ov ≫= block) !! name).
Qed.

(** C10. Entries for calculated attribute names added to the manual
    overrides change nothing: the run returns the same result as without
    them, for every scenario, iteration cap and threshold. *)
Theorem calculated_overrides_ignored scenarioName maxIterations threshold ov
    (extraProduction extraLogistics : gmap string A) :
  dom extraProduction ⊆ calculatedKeys ->
  dom extraLogistics ⊆ calculatedKeys ->
  runSimulation scenarioName maxIterations threshold
      (withEntries extraProduction extraLogistics ov) =
    runSimulation scenarioName maxIterations threshold ov.
Proof.
  intros HP HL. unfold runSimulation, runSimulationOn.
  rewrite !resolveInputs_reads.
  rewrite !(overrideOf_withEntries _ _ _ Production extraProduction),
          !(overrideOf_withEntries _ _ _ Logistics extraLogistics);
    try reflexivity;
    (eapply not_calculated_None; [eassumption|]);
    apply inputs_not_calculated.
Qed.

(** ** Absence of validation *)

(** C7 (amended). [runSimulation] checks no value for finiteness: it never
    raises, and whatever number a manual override supplies for an input
    attribute, finite or not, is the value the context carries into the
    passes and out of them. *)
Theorem override_enters_unchecked scenarioName maxIterations threshold ov :
  exists ctx, runSimulation scenarioName maxIterations threshold ov = Ok ctx /\
    (forall v, overrideOf ov Production "materialCost" = Some v ->
               materialCost ctx = v) /\
    (forall v, overrideOf ov Production "energyCost" = Some v ->
               energyCost ctx = v) /\
    (forall v, overrideOf ov Logistics "transportCost" = Some v ->
               transportCost ctx = v).
Proof.
  destruct (resolveInputs_defined scenarioName ov)
    as (ctx0 & H0 & Hm & He & Ht & _).
  destruct (runSimulation_afterPasses _ maxIterations threshold _ _ H0)
    as (k & _ & Hk).
  exists (afterPasses k ctx0). split; [exact Hk|].
  destruct (afterPasses_inputs k ctx0) as (-> & -> & ->).
  unfold resolvedInput in *.
  repeat split; intros v Hv; rewrite Hv in *; simpl in *; congruence.
Qed.

(** ** Absent formulas *)

Lemma callFormula_missing (b : Block A) name ctx :
  formulaOf b name = None -> callFormula b name ctx = Throw TypeError.
Proof.
  unfold formulaOf, callFormula.
  destruct (attributeOf b name) as [a|]; simpl; [|reflexivity].
  now intros ->.
Qed.

Lemma callFormula_cases (b : Block A) name ctx :
  callFormula b name ctx = Throw TypeError \/
  exists v, callFormula b name ctx = Ok v.
Proof.
  unfold callFormula.
  destruct (attributeOf b name) as [a|]; [|now left].
  destruct (formula a); [right; eauto|now left].
Qed.

Lemma pass_missing (model : Blocks A) ctx :
  formulaOf (Production model) "disposalCost" = None \/
  formulaOf (Production model) "co2Cost" = None \/
  formulaOf (Logistics model) "logisticsCost" = None \/
  formulaOf (Logistics model) "ecoFees" = None ->
  pass model ctx = Throw TypeError.
Proof.
  intros H. unfold pass.
  destruct (callFormula_cases (Production model) "disposalCost" ctx)
    as [->|[d Hd]]; [reflexivity|].
  destruct H as [H|H];
    [rewrite (callFormula_missing _ _ _ H) in Hd; discriminate|].
  rewrite Hd. simpl.
  destruct (callFormula_cases (Production model) "co2Cost"
              (set_disposalCost d ctx)) as [->|[c Hc]]; [reflexivity|].
  destruct H as [H|H];
    [rewrite (callFormula_missing _ _ _ H) in Hc; discriminate|].
  rewrite Hc. simpl.
  destruct (callFormula_cases (Logistics model) "logisticsCost"
              (set_co2Cost c (set_disposalCost d ctx)))
    as [->|[l Hl]]; [reflexivity|].
  destruct H as [H|H];
    [rewrite (callFormula_missing _ _ _ H) in Hl; discriminate|].
  rewrite Hl. simpl.
  now rewrite (callFormula_missing _ _ _ H).
Qed.

(** In the shipped model every calculated attribute carries its formula. *)
Lemma blocks_formulas_present :
  is_Some (formulaOf (Production (blocks (A:=A))) "disposalCost") /\
  is_Some (formulaOf (Production (blocks (A:=A))) "co2Cost") /\
  is_Some (formulaOf (Logistics (blocks (A:=A))) "logisticsCost") /\
  is_Some (formulaOf (Logistics (blocks (A:=A))) "ecoFees").
Proof. repeat split; eexists; reflexivity. Qed.

(** C8 (amended). There is no formula lookup that fails with a
    ConfigError: the loop calls [formula!] directly, so over a model in
    which one of the four calculated attributes has no formula the first
    pass stops with the runtime's TypeError and no value is produced. *)
Theorem missing_formula_raises_TypeError (model : Blocks A) scenarioName
    maxIterations threshold ov :
  (0 < maxIterations)%Z ->
  formulaOf (Production model) "disposalCost" = None \/
  formulaOf (Production model) "co2Cost" = None \/
  formulaOf (Logistics model) "logisticsCost" = None \/
  formulaOf (Logistics model) "ecoFees" = None ->
  runSimulationOn model scenarioName maxIterations threshold ov =
    Throw TypeError.
Proof.
  intros Hn Hmiss. unfold runSimulationOn.
  destruct (resolveInputs_defined scenarioName ov) as (ctx0 & -> & _).
  destruct (Z.to_nat maxIterations) as [|n] eqn:E; [lia|].
  simpl. now rewrite (pass_missing model ctx0 Hmiss).
Qed.

End Structural.

(** ** Order of binary64 numbers through their specification *)

Lemma SFcompare_ge_lt (r x t : spec_float) :
  SFge r x -> SFcompare r t = Some Lt -> SFcompare x t = Some Lt.
Proof.
  unfold SFge. split_floats; intros [H1|H1] H2;
    try discriminate; try reflexivity;
    compare_cases; simpl in *; subst;
    try discriminate; try reflexivity; try lia.
Qed.

Lemma SFge_trans (r x h : spec_float) : SFge r x -> SFge x h -> SFge r h.
Proof.
  unfold SFge. split_floats; intros [H1|H1] [H2|H2];
    try discriminate; auto;
    compare_cases; simpl in *; subst; try discriminate; auto; try lia.
Qed.

Lemma SFcompare_opp (a b : spec_float) (c : comparison) :
  SFcompare a b = Some c -> SFcompare b a = Some (CompOpp c).
Proof.
  split_floats; intros H; try discriminate; injection H as <-;
    try reflexivity;
    compare_cases; simpl in *; subst; try reflexivity; try lia.
Qed.

Lemma SFcompare_self (r x : spec_float) :
  SFcompare r x <> None -> SFcompare r r = Some Eq.
Proof.
  destruct r as [sr|sr| |sr mr er]; simpl.
  - reflexivity.
  - destruct sr; reflexivity.
  - congruence.
  - intros _. rewrite Z.compare_refl, Pos.compare_cont_refl.
    destruct sr; reflexivity.
Qed.

Lemma SFcompare_total (a b : spec_float) :
  SFcompare a a = Some Eq -> SFcompare b b = Some Eq ->
  exists c, SFcompare a b = Some c.
Proof. destruct a, b; simpl; intros Ha Hb; try discriminate; eauto. Qed.

Lemma ltb_Lt (x y : float) :
  PrimFloat.ltb x y = true -> SFcompare (Prim2SF x) (Prim2SF y) = Some Lt.
Proof.
  rewrite ltb_spec. unfold SFltb.
  destruct (SFcompare _ _) as [[]|]; congruence.
Qed.

Lemma Lt_ltb (x y : float) :
  SFcompare (Prim2SF x) (Prim2SF y) = Some Lt -> PrimFloat.ltb x y = true.
Proof. rewrite ltb_spec. unfold SFltb. now intros ->. Qed.

Lemma eqb_Eq (x y : float) :
  PrimFloat.eqb x y = true -> SFcompare (Prim2SF x) (Prim2SF y) = Some Eq.
Proof.
  rewrite FloatAxioms.eqb_spec. unfold SFeqb.
  destruct (SFcompare _ _) as [[]|]; congruence.
Qed.

Lemma not_nan_self (x : float) :
  PrimFloat.is_nan x = false -> SFcompare (Prim2SF x) (Prim2SF x) = Some Eq.
Proof.
  unfold PrimFloat.is_nan. intros H. apply eqb_Eq.
  now destruct (PrimFloat.eqb x x).
Qed.

(** When [Math.max] of a list, started from [h], is below some bound, it is
    a number that no element of the list and not [h] exceeds. *)
Lemma js_max_from_bound (l : list float) : forall (h t : float),
  PrimFloat.ltb (js_max_from h l) t = true ->
  SFge (Prim2SF (js_max_from h l)) (Prim2SF h) /\
  forall x, In x l -> SFge (Prim2SF (js_max_from h l)) (Prim2SF x).
Proof.
  induction l as [|y l IH]; intros h t Hlt; simpl in *.
  - split; [|tauto]. left.
    apply ltb_Lt in Hlt. eapply SFcompare_self. rewrite Hlt. discriminate.
  - destruct (PrimFloat.is_nan y) eqn:Hy.
    { apply ltb_Lt in Hlt. discriminate. }
    pose proof (not_nan_self _ Hy) as Hyy.
    destruct (is_pos_zero y && is_neg_zero h) eqn:Hz.
    { destruct (IH y t Hlt) as [Hry Hrl].
      apply andb_prop in Hz as [Hpz Hnz].
      unfold is_pos_zero in Hpz. unfold is_neg_zero in Hnz.
      apply andb_prop in Hpz as [Hpz _]. apply andb_prop in Hnz as [Hnz _].
      apply eqb_Eq in Hpz. apply eqb_Eq in Hnz.
      apply SFcompare_opp in Hnz. simpl in Hnz.
      assert (Hyh : SFge (Prim2SF y) (Prim2SF h)).
      { apply SFge_trans with (Prim2SF PrimFloat.zero); left; assumption. }
      split; [eapply SFge_trans; eassumption|].
      intros x [<-|Hx]; auto. }
    destruct (PrimFloat.ltb h y) eqn:Hhy.
    { destruct (IH y t Hlt) as [Hry Hrl].
      apply ltb_Lt in Hhy. apply SFcompare_opp in Hhy. simpl in Hhy.
      split; [eapply SFge_trans; [eassumption|right; assumption]|].
      intros x [<-|Hx]; auto. }
    destruct (IH h t Hlt) as [Hrh Hrl].
    split; [assumption|].
    intros x [<-|Hx]; auto.
    assert (Hhh : SFcompare (Prim2SF h) (Prim2SF h) = Some Eq).
    { destruct Hrh as [Hrh|Hrh]; apply SFcompare_opp in Hrh;
      eapply SFcompare_self; rewrite Hrh; discriminate. }
    destruct (SFcompare_total _ _ Hhh Hyy) as [c Hc].
    eapply SFge_trans; [eassumption|].
    destruct c; [left|exfalso|right]; auto.
    apply Lt_ltb in Hc. congruence.
Qed.

Lemma js_Math_max_lt (l : list float) (t x : float) :
  PrimFloat.ltb (js_Math_max l) t = true -> In x l -> PrimFloat.ltb x t = true.
Proof.
  intros Hlt Hx. unfold js_Math_max in *.
  destruct (js_max_from_bound l _ t Hlt) as [_ Hall].
  apply Lt_ltb. eapply SFcompare_ge_lt; [apply Hall, Hx|].
  now apply ltb_Lt.
Qed.

#[export] Instance js_number_laws : NumberLaws float.
Proof. constructor. exact js_Math_max_lt. Qed.

(** ** Order of exact numbers *)

Lemma Rltb_true (x y : R) : Rltb x y = true <-> (x < y)%R.
Proof. unfold Rltb. destruct (Rlt_dec x y); split; intros; try lra; congruence. Qed.

Lemma fold_Rmax_bound (l : list R) : forall a : R,
  (a <= fold_left Rmax l a)%R /\
  forall x, In x l -> (x <= fold_left Rmax l a)%R.
Proof.
  induction l as [|y l IH]; intros a; simpl.
  - split; [lra|tauto].
  - destruct (IH (Rmax a y)) as [Ha Hl].
    pose proof (Rmax_l a y). pose proof (Rmax_r a y).
    split; [lra|]. intros x [<-|Hx]; [lra|auto].
Qed.

Lemma Rmax_list_lt (l : list R) (t x : R) :
  Rltb (Rmax_list l) t = true -> In x l -> Rltb x t = true.
Proof.
  rewrite !Rltb_true. destruct l as [|a l]; [intros _ []|].
  simpl. destruct (fold_Rmax_bound l a) as [Ha Hl].
  intros Hlt [<-|Hx]; [lra|]. specialize (Hl x Hx). lra.
Qed.

#[export] Instance exact_number_laws : NumberLaws R.
Proof. constructor. exact Rmax_list_lt. Qed.

(** ** Convergence *)

Section Convergence.
Context {A : Type} {N : Number A} {L : NumberLaws A}.
Local Open Scope num_scope.

Implicit Types (ctx prev : SimulationContext A) (ov : option (Scenario A)).

Lemma relaxExit_converged threshold n : forall ctx0 ctx,
  relaxExit blocks threshold n ctx0 = Ok (ctx, Converged) ->
  exists prev, ctx = sweep prev /\ converged threshold prev ctx = true.
Proof.
  induction n as [|n IH]; intros ctx0 ctx; [discriminate|].
  rewrite relaxExit_step.
  destruct (converged threshold ctx0 (sweep ctx0)) eqn:E.
  - intros [= <-]. eauto.
  - apply IH.
Qed.

Lemma converged_pass scenarioName maxIterations threshold ov ctx :
  runSimulationExit scenarioName maxIterations threshold ov =
    Ok (ctx, Converged) ->
  runSimulation scenarioName maxIterations threshold ov = Ok ctx /\
  exists prev, ctx = sweep prev /\ converged threshold prev ctx = true /\
    (Math_abs (co2Cost ctx - co2Cost prev) <? threshold) = true /\
    (Math_abs (ecoFees ctx - ecoFees prev) <? threshold) = true.
Proof.
  intros HE. unfold runSimulationExit in HE.
  unfold runSimulation, runSimulationOn.
  destruct (resolveInputs scenarioName ov) as [ctx0|e]; [|discriminate].
  simpl in *. split; [now rewrite relaxExit_erase, HE|].
  apply relaxExit_converged in HE as (prev & -> & Hc).
  exists prev. repeat split; try exact Hc;
    apply (Math_max_lt _ _ _ Hc); simpl; tauto.
Qed.

(** C1 (amended). When the run ends through the convergence test, the
    returned context is one pass applied to the snapshot [prev] of that
    pass.  The equations of co2Cost and ecoFees hold exactly; those of
    disposalCost and logisticsCost hold exactly with the snapshot's co2Cost
    and ecoFees, which are within the threshold of the returned ones. *)
Theorem converged_context_equations scenarioName maxIterations threshold ov
    ctx :
  runSimulationExit scenarioName maxIterations threshold ov =
    Ok (ctx, Converged) ->
  runSimulation scenarioName maxIterations threshold ov = Ok ctx /\
  exists prev, pass blocks prev = Ok ctx /\
    converged threshold prev ctx = true /\
    co2Cost ctx = energyCost ctx * lit 0.1 + disposalCost ctx * lit 0.05 /\
    ecoFees ctx = logisticsCost ctx * lit 0.1 + co2Cost ctx * lit 0.05 /\
    disposalCost ctx = materialCost ctx * lit 0.8 + co2Cost prev /\
    logisticsCost ctx = transportCost ctx + ecoFees prev /\
    (Math_abs (co2Cost ctx - co2Cost prev) <? threshold) = true /\
    (Math_abs (ecoFees ctx - ecoFees prev) <? threshold) = true.
Proof.
  intros HE.
  destruct (converged_pass _ _ _ _ _ HE) as (Hrun & prev & -> & Hc & Hk & Hf).
  split; [exact Hrun|].
  exists prev. split; [apply pass_blocks|]. repeat split; assumption.
Qed.

End Convergence.

(** ** Exact arithmetic *)

Section Exact.
Local Open Scope R_scope.

Implicit Types (ctx prev : SimulationContext R).

Lemma Rmax_4_le (a b c d m : R) :
  a <= m -> b <= m -> c <= m -> d <= m -> Rmax (Rmax (Rmax a b) c) d <= m.
Proof. intros. repeat apply Rmax_lub; assumption. Qed.

Lemma Rabs_scale (x y a b : R) :
  0 <= a -> 0 <= b -> a + b <= 1 ->
  Rabs (a * x + b * y) <= Rmax (Rabs x) (Rabs y).
Proof.
  intros Ha Hb Hab.
  pose proof (Rmax_l (Rabs x) (Rabs y)). pose proof (Rmax_r (Rabs x) (Rabs y)).
  pose proof (Rabs_pos x). pose proof (Rabs_pos y).
  eapply Rle_trans; [apply Rabs_triang|].
  rewrite !Rabs_mult, (Rabs_pos_eq a), (Rabs_pos_eq b) by assumption.
  nra.
Qed.

Lemma Math_max_deltas prev ctx :
  Math_max (deltas prev ctx) =
  Rmax (Rmax (Rmax (Rabs (disposalCost ctx - disposalCost prev))
                   (Rabs (co2Cost ctx - co2Cost prev)))
             (Rabs (logisticsCost ctx - logisticsCost prev)))
       (Rabs (ecoFees ctx - ecoFees prev)).
Proof. reflexivity. Qed.

(** The changes of a pass in terms of those of the pass before it. *)
Lemma sweep_changes ctx :
  disposalCost (sweep (sweep ctx)) - disposalCost (sweep ctx) =
    co2Cost (sweep ctx) - co2Cost ctx /\
  co2Cost (sweep (sweep ctx)) - co2Cost (sweep ctx) =
    5 / 100 * (co2Cost (sweep ctx) - co2Cost ctx) /\
  logisticsCost (sweep (sweep ctx)) - logisticsCost (sweep ctx) =
    ecoFees (sweep ctx) - ecoFees ctx /\
  ecoFees (sweep (sweep ctx)) - ecoFees (sweep ctx) =
    1 / 10 * (ecoFees (sweep ctx) - ecoFees ctx) +
    25 / 10000 * (co2Cost (sweep ctx) - co2Cost ctx).
Proof. simpl. repeat split; lra. Qed.

Lemma sweep_contracts ctx :
  Math_max (deltas (sweep ctx) (sweep (sweep ctx))) <=
  Math_max (deltas ctx (sweep ctx)).
Proof.
  destruct (sweep_changes ctx) as (Hd & Hk & Hl & Hf).
  rewrite !Math_max_deltas, Hd, Hk, Hl, Hf.
  set (x := co2Cost (sweep ctx) - co2Cost ctx).
  set (y := ecoFees (sweep ctx) - ecoFees ctx).
  set (u := Rabs (disposalCost (sweep ctx) - disposalCost ctx)).
  set (v := Rabs (logisticsCost (sweep ctx) - logisticsCost ctx)).
  assert (Hx : Rabs x <= Rmax (Rmax (Rmax u (Rabs x)) v) (Rabs y)).
  { eapply Rle_trans; [|apply Rmax_l]. eapply Rle_trans; [|apply Rmax_l].
    apply Rmax_r. }
  assert (Hy : Rabs y <= Rmax (Rmax (Rmax u (Rabs x)) v) (Rabs y))
    by apply Rmax_r.
  assert (Hxy : Rmax (Rabs x) (Rabs y) <=
                Rmax (Rmax (Rmax u (Rabs x)) v) (Rabs y))
    by (apply Rmax_lub; assumption).
  apply Rmax_4_le; try assumption.
  - replace (5 / 100 * x) with (5 / 100 * x + 0 * y) by lra.
    eapply Rle_trans; [apply Rabs_scale; lra|exact Hxy].
  - rewrite Rplus_comm.
    eapply Rle_trans; [apply Rabs_scale; lra|exact Hxy].
Qed.

(** Over the reals the largest change of a pass never exceeds that of the
    pass before it, from the second pass on.  This is the contraction of
    the formulas; a binary64 run need not follow it
    ([rounding_breaks_monotonicity], [overflow_breaks_monotonicity]). *)
Theorem exact_delta_non_increasing scenarioName
    (ov : option (Scenario R)) ctx0 (k : nat) :
  resolveInputs scenarioName ov = Ok ctx0 ->
  (2 <= k)%nat ->
  passDelta ctx0 k <= passDelta ctx0 (k - 1).
Proof.
  intros _ Hk. unfold passDelta.
  destruct k as [|[|k]]; try lia.
  replace (S (S k) - 1)%nat with (S k) by lia.
  replace (S k - 1)%nat with k by lia.
  rewrite !afterPasses_S. apply sweep_contracts.
Qed.

(** In exact arithmetic a context returned through the convergence test
    satisfies the four equations within the threshold. *)
Corollary exact_converged_residuals scenarioName maxIterations
    (threshold : R) (ov : option (Scenario R)) ctx :
  runSimulationExit scenarioName maxIterations threshold ov =
    Ok (ctx, Converged) ->
  Rabs (disposalCost ctx - (materialCost ctx * (8 / 10) + co2Cost ctx))
    < threshold /\
  Rabs (co2Cost ctx - (energyCost ctx * (1 / 10) + disposalCost ctx * (5 / 100)))
    < threshold /\
  Rabs (logisticsCost ctx - (transportCost ctx + ecoFees ctx)) < threshold /\
  Rabs (ecoFees ctx - (logisticsCost ctx * (1 / 10) + co2Cost ctx * (5 / 100)))
    < threshold.
Proof.
  intros HE.
  destruct (converged_pass _ _ _ _ _ HE) as (_ & prev & -> & _ & Hdk & Hdf).
  apply Rltb_true in Hdk. apply Rltb_true in Hdf.
  simpl in *. repeat split.
  - replace (_ - _) with (- (co2Cost (sweep prev) - co2Cost prev))
      by (simpl; lra).
    now rewrite Rabs_Ropp.
  - replace (_ - _) with 0 by lra. rewrite Rabs_R0.
    eapply Rle_lt_trans; [apply Rabs_pos|exact Hdk].
  - replace (_ - _) with (- (ecoFees (sweep prev) - ecoFees prev))
      by (simpl; lra).
    now rewrite Rabs_Ropp.
  - replace (_ - _) with 0 by lra. rewrite Rabs_R0.
    eapply Rle_lt_trans; [apply Rabs_pos|exact Hdk].
Qed.

End Exact.

(** ** binary64: concrete runs *)

Section Binary64.
Import Samples.
Local Open Scope float_scope.

(** The run of the Base scenario with the default cap and threshold. *)
Example base_run :
  runSimulationExit "Base" 100 (lit 0.001) None = Ok (baseConverged, Converged)
  /\ runSimulation "Base" 100 (lit 0.001) None = Ok baseConverged
  /\ afterPasses 6 baseInitial = baseConverged.
Proof. evaluate. Qed.

(** On the initial Base context a Jacobi pass would leave co2Cost at 6 and
    ecoFees at 0; the pass of the source gives 10.8 and 4.04. *)
Example pass_is_not_jacobi :
  (co2Cost <$> jacobi blocks baseInitial) = Ok 6 /\
  (ecoFees <$> jacobi blocks baseInitial) = Ok 0 /\
  (co2Cost <$> pass blocks baseInitial) = Ok 10.800000000000001 /\
  (ecoFees <$> pass blocks baseInitial) = Ok 4.04.
Proof. evaluate. Qed.

(** Each level of the precedence chain on a concrete call: materialCost
    from the manual override, energyCost from the named scenario, and
    transportCost from Base when the caller names no scenario of the
    catalog. *)
Example precedence_levels :
  runSimulation "HighEnergyPrices" 0 (lit 0.001)
      (Some {| Production := Some {[ "materialCost" := 200 ]};
               Logistics := None |}) =
    Ok {| materialCost := 200; energyCost := 90; transportCost := 40;
          disposalCost := 0; co2Cost := 0; logisticsCost := 0; ecoFees := 0 |}
  /\ runSimulation "LowDemand" 0 (lit 0.001) None = Ok baseInitial.
Proof. evaluate. Qed.

(** A run stopped by the cap and a run stopped by the convergence test can
    return the same context: nothing in the result tells them apart. *)
Example exit_not_observable :
  runSimulationExit "Base" 6 (lit 0.0001) None = Ok (baseConverged, Exhausted)
  /\ runSimulationExit "Base" 6 (lit 0.001) None = Ok (baseConverged, Converged)
  /\ runSimulation (A:=float) "Base" 6 (lit 0.0001) None =
       runSimulation "Base" 6 (lit 0.001) None.
Proof. evaluate. Qed.

(** In binary64 the largest changes of the first passes of the Base run. *)
Example base_deltas :
  List.map (passDelta baseInitial) [1; 2; 3; 4; 5; 6]%nat =
  [96; 10.799999999999997; 0.54000000000000625; 0.044449999999997658;
   0.0045124999999970328; 0.00045462500000326145].
Proof. evaluate. Qed.

(** C1, as stated, fails in binary64.  Base with energyCost 1000 and
    threshold 104.80000000000001: the first pass changes no attribute by as
    much as the threshold (the largest change is 104.8), so the run ends
    through the convergence test; yet disposalCost = 96 is
    104.80000000000001 away from materialCost * 0.8 + co2Cost, which is not
    strictly below the threshold. *)
Lemma rounding_breaks_residual_bound :
  PrimFloat.is_finite 120 = true /\ PrimFloat.is_finite 1000 = true /\
  PrimFloat.is_finite 35 = true /\ (0 <? 104.80000000000001) = true /\
  resolveInputs "Base" energy1000 = Ok energy1000Initial /\
  runSimulationExit "Base" 100 104.80000000000001 energy1000 =
    Ok (energy1000FirstPass, Converged) /\
  Math_max (deltas energy1000Initial energy1000FirstPass) = 104.8 /\
  Math_abs (disposalCost energy1000FirstPass -
            (materialCost energy1000FirstPass * 0.8 +
             co2Cost energy1000FirstPass)) = 104.80000000000001 /\
  (Math_abs (disposalCost energy1000FirstPass -
             (materialCost energy1000FirstPass * 0.8 +
              co2Cost energy1000FirstPass)) <? 104.80000000000001) = false.
Proof. evaluate. Qed.


(** C7, as stated, fails.  A NaN supplied for materialCost raises nothing:
    all 100 passes run on it and the returned disposalCost is NaN. *)
Lemma non_finite_override_not_rejected :
  PrimFloat.is_finite nan = false /\
  overrideOf materialNaN Production "materialCost" = Some nan /\
  (forall e, runSimulation "Base" 100 (lit 0.001) materialNaN <> Throw e) /\
  (materialCost <$> runSimulation "Base" 100 (lit 0.001) materialNaN) = Ok nan /\
  (disposalCost <$> runSimulation "Base" 100 (lit 0.001) materialNaN) = Ok nan /\
  (snd <$> runSimulationExit "Base" 100 (lit 0.001) materialNaN) = Ok Exhausted.
Proof.
  repeat split; try (vm_compute; reflexivity).
  intros e. vm_compute. discriminate.
Qed.

(** C8, as stated, fails.  Over a model whose calculated attribute
    disposalCost has no formula the run stops with a TypeError; no exception
    named ConfigError exists. *)
Lemma absent_formula_is_not_ConfigError :
  (type <$> attributeOf (Production blocksNoDisposalFormula) "disposalCost")
    = Some calculated /\
  formulaOf (Production blocksNoDisposalFormula) "disposalCost" = None /\
  runSimulationOn blocksNoDisposalFormula "Base" 100 (lit 0.001) None =
    Throw TypeError /\
  exceptionName TypeError <> Some "ConfigError".
Proof. repeat split; try (vm_compute; reflexivity). discriminate. Qed.

(** *** Instances of the conditional statements *)

Lemma converged_context_equations_witness :
  runSimulationExit "Base" 100 (lit 0.001) None = Ok (baseConverged, Converged)
  /\ (runSimulation "Base" 100 (lit 0.001) None = Ok baseConverged /\
      exists prev, pass blocks prev = Ok baseConverged /\
        converged (lit 0.001) prev baseConverged = true /\
        co2Cost baseConverged =
          energyCost baseConverged * lit 0.1 +
          disposalCost baseConverged * lit 0.05 /\
        ecoFees baseConverged =
          logisticsCost baseConverged * lit 0.1 +
          co2Cost baseConverged * lit 0.05 /\
        disposalCost baseConverged =
          materialCost baseConverged * lit 0.8 + co2Cost prev /\
        logisticsCost baseConverged =
          transportCost baseConverged + ecoFees prev /\
        (Math_abs (co2Cost baseConverged - co2Cost prev) <? lit 0.001) = true /\
        (Math_abs (ecoFees baseConverged - ecoFees prev) <? lit 0.001) = true).
Proof.
  assert (H : runSimulationExit "Base" 100 (lit 0.001) None =
              Ok (baseConverged, Converged)) by (vm_compute; reflexivity).
  split; [exact H|].
  exact (converged_context_equations "Base" 100 (lit 0.001) None
           baseConverged H).
Defined.

Lemma unknown_scenario_is_Base_witness :
  (scenarios (A:=float)) !! "LowDemand" = None /\
  (runSimulation (A:=float) "LowDemand" 100 (lit 0.001) None =
     runSimulation "Base" 100 (lit 0.001) None /\
   exists ctx, runSimulation (A:=float) "LowDemand" 100 (lit 0.001) None = Ok ctx).
Proof.
  assert (H : (scenarios (A:=float)) !! "LowDemand" = None)
    by (vm_compute; reflexivity).
  split; [exact H|].
  exact (unknown_scenario_is_Base (A:=float) "LowDemand" 100 (lit 0.001) None H).
Defined.

Lemma exhausted_returns_last_pass_witness :
  resolveInputs "Base" None = Ok baseInitial /\
  (forall k, (1 <= k <= 3)%nat ->
     (passDelta baseInitial k <? lit 0.001) = false) /\
  (runSimulationExit "Base" (Z.of_nat 3) (lit 0.001) None =
     Ok (afterPasses 3 baseInitial, Exhausted) /\
   runSimulation "Base" (Z.of_nat 3) (lit 0.001) None =
     Ok (afterPasses 3 baseInitial) /\
   length (getDisplayRows (afterPasses 3 baseInitial)) = 7%nat).
Proof.
  assert (H0 : resolveInputs "Base" None = Ok baseInitial)
    by (vm_compute; reflexivity).
  assert (Hall : forall k, (1 <= k <= 3)%nat ->
            (passDelta baseInitial k <? lit 0.001) = false).
  { intros k Hk.
    destruct k as [|[|[|[|k]]]]; try lia; vm_compute; reflexivity. }
  split; [exact H0|]. split; [exact Hall|].
  exact (exhausted_returns_last_pass "Base" 3 (lit 0.001) None baseInitial
           H0 Hall).
Defined.

Lemma calculated_overrides_ignored_witness :
  dom calculatedProduction ⊆ calculatedKeys /\
  dom calculatedLogistics ⊆ calculatedKeys /\
  runSimulation "HighEnergyPrices" 100 (lit 0.001)
      (withEntries calculatedProduction calculatedLogistics energy1000) =
    runSimulation "HighEnergyPrices" 100 (lit 0.001) energy1000.
Proof.
  assert (HP : dom calculatedProduction ⊆ calculatedKeys)
    by (apply (bool_decide_unpack _); vm_compute; exact I).
  assert (HL : dom calculatedLogistics ⊆ calculatedKeys)
    by (apply (bool_decide_unpack _); vm_compute; exact I).
  split; [exact HP|]. split; [exact HL|].
  exact (calculated_overrides_ignored "HighEnergyPrices" 100 (lit 0.001)
           energy1000 calculatedProduction calculatedLogistics HP HL).
Defined.

Lemma missing_formula_raises_TypeError_witness :
  (0 < 100)%Z /\
  (formulaOf (Production blocksNoDisposalFormula) "disposalCost" = None \/
   formulaOf (Production blocksNoDisposalFormula) "co2Cost" = None \/
   formulaOf (Logistics blocksNoDisposalFormula) "logisticsCost" = None \/
   formulaOf (Logistics blocksNoDisposalFormula) "ecoFees" = None) /\
  runSimulationOn blocksNoDisposalFormula "Base" 100 (lit 0.001) None =
    Throw TypeError.
Proof.
  assert (Hn : (0 < 100)%Z) by lia.
  assert (Hm :
    formulaOf (Production blocksNoDisposalFormula) "disposalCost" = None \/
    formulaOf (Production blocksNoDisposalFormula) "co2Cost" = None \/
    formulaOf (Logistics blocksNoDisposalFormula) "logisticsCost" = None \/
    formulaOf (Logistics blocksNoDisposalFormula) "ecoFees" = None)
    by (left; vm_compute; reflexivity).
  split; [exact Hn|]. split; [exact Hm|].
  exact (missing_formula_raises_TypeError blocksNoDisposalFormula "Base" 100
           (lit 0.001) None Hn Hm).
Defined.

End Binary64.


(** * Further properties of the loop *)

Section Loop.
Context {A : Type} {N : Number A}.
Local Open Scope num_scope.

Implicit Types (ctx prev : SimulationContext A) (ov : option (Scenario A)).

Lemma relaxExit_first threshold (k : nat) : forall (n : nat) ctx,
  (1 <= k <= n)%nat ->
  (passDelta ctx k <? threshold) = true ->
  (forall j, (1 <= j < k)%nat -> (passDelta ctx j <? threshold) = false) ->
  relaxExit blocks threshold n ctx = Ok (afterPasses k ctx, Converged).
Proof.
  induction k as [|k IH]; intros n ctx Hk Hlt Hbefore; [lia|].
  destruct n as [|n]; [lia|].
  rewrite relaxExit_step, passDelta_1.
  destruct k as [|k].
  - now rewrite Hlt.
  - rewrite (Hbefore 1%nat) by lia.
    rewrite afterPasses_shift. apply IH; [lia| |].
    + now rewrite passDelta_shift by lia.
    + intros j Hj. rewrite passDelta_shift by lia. apply Hbefore. lia.
Qed.

(** X1. The loop stops at the first pass whose largest change is strictly
    below the threshold: when pass [k] is such a pass, no earlier one is and
    [k] does not exceed the cap, the context after exactly [k] passes is
    returned. *)
Theorem stops_at_first_converging_pass scenarioName (maxIterations k : nat)
    threshold ov ctx0 :
  resolveInputs scenarioName ov = Ok ctx0 ->
  (1 <= k <= maxIterations)%nat ->
  (passDelta ctx0 k <? threshold) = true ->
  (forall j, (1 <= j < k)%nat -> (passDelta ctx0 j <? threshold) = false) ->
  runSimulationExit scenarioName (Z.of_nat maxIterations) threshold ov =
    Ok (afterPasses k ctx0, Converged) /\
  runSimulation scenarioName (Z.of_nat maxIterations) threshold ov =
    Ok (afterPasses k ctx0).
Proof.
  intros H0 Hk Hlt Hbefore.
  pose proof (relaxExit_first threshold k maxIterations ctx0 Hk Hlt Hbefore)
    as HE.
  unfold runSimulationExit, runSimulation, runSimulationOn.
  rewrite H0, Nat2Z.id. simpl. split; [exact HE|].
  now rewrite relaxExit_erase, HE.
Qed.

Lemma relaxExit_more threshold (n : nat) : forall (n' : nat) ctx0 ctx,
  (n <= n')%nat ->
  relaxExit blocks threshold n ctx0 = Ok (ctx, Converged) ->
  relaxExit blocks threshold n' ctx0 = Ok (ctx, Converged).
Proof.
  induction n as [|n IH]; intros n' ctx0 ctx Hn; [discriminate|].
  destruct n' as [|n']; [lia|].
  rewrite !relaxExit_step.
  destruct (converged threshold ctx0 (sweep ctx0)); [tauto|].
  apply IH. lia.
Qed.

(** X2. Once a run ends through the convergence test, raising the
    iteration cap changes nothing: every larger cap returns the same
    context. *)
Theorem larger_cap_same_result scenarioName (maxIterations larger : Z)
    threshold ov ctx :
  runSimulationExit scenarioName maxIterations threshold ov =
    Ok (ctx, Converged) ->
  (maxIterations <= larger)%Z ->
  runSimulationExit scenarioName larger threshold ov = Ok (ctx, Converged) /\
  runSimulation scenarioName larger threshold ov = Ok ctx.
Proof.
  unfold runSimulationExit, runSimulation, runSimulationOn.
  destruct (resolveInputs scenarioName ov) as [ctx0|e]; [|discriminate].
  simpl. intros HE Hle.
  apply (relaxExit_more _ _ (Z.to_nat larger)) in HE; [|lia].
  split; [exact HE|]. now rewrite relaxExit_erase, HE.
Qed.

Lemma relaxExit_last_pass threshold (n : nat) : forall ctx0 ctx x,
  (0 < n)%nat ->
  relaxExit blocks threshold n ctx0 = Ok (ctx, x) ->
  exists prev, ctx = sweep prev.
Proof.
  induction n as [|n IH]; intros ctx0 ctx x Hn; [lia|].
  rewrite relaxExit_step.
  destruct (converged threshold ctx0 (sweep ctx0)).
  - intros [= <- _]. eauto.
  - destruct n as [|n].
    + intros [= <- _]. eauto.
    + apply IH. lia.
Qed.

(** X3. With a cap of at least one, whichever way the loop ends, the
    returned context is the outcome of a pass: its co2Cost and ecoFees
    satisfy their equations exactly on the returned values, and its
    disposalCost and logisticsCost are computed from the co2Cost and ecoFees
    the last pass started with. *)
Theorem returned_context_is_a_pass scenarioName maxIterations threshold ov :
  (0 < maxIterations)%Z ->
  exists ctx prev,
    runSimulation scenarioName maxIterations threshold ov = Ok ctx /\
    pass blocks prev = Ok ctx /\
    co2Cost ctx = energyCost ctx * lit 0.1 + disposalCost ctx * lit 0.05 /\
    ecoFees ctx = logisticsCost ctx * lit 0.1 + co2Cost ctx * lit 0.05 /\
    disposalCost ctx = materialCost ctx * lit 0.8 + co2Cost prev /\
    logisticsCost ctx = transportCost ctx + ecoFees prev.
Proof.
  intros Hn.
  destruct (resolveInputs_defined scenarioName ov) as (ctx0 & H0 & _).
  destruct (relaxExit_blocks threshold (Z.to_nat maxIterations) ctx0)
    as (k & x & _ & HE).
  assert (Hpos : (0 < Z.to_nat maxIterations)%nat) by lia.
  destruct (relaxExit_last_pass _ _ _ _ _ Hpos HE) as (prev & Hprev).
  exists (afterPasses k ctx0), prev. split.
  - unfold runSimulation, runSimulationOn. rewrite H0. simpl.
    now rewrite relaxExit_erase, HE.
  - rewrite Hprev. split; [apply pass_blocks|]. repeat split.
Qed.

(** X4. The Production block never reads the Logistics block: two contexts
    that agree on materialCost, energyCost, disposalCost and co2Cost have
    the same disposalCost and co2Cost after any number of passes, whatever
    their transportCost, logisticsCost and ecoFees. *)
Theorem production_ignores_logistics (k : nat) ctx ctx' :
  materialCost ctx = materialCost ctx' ->
  energyCost ctx = energyCost ctx' ->
  disposalCost ctx = disposalCost ctx' ->
  co2Cost ctx = co2Cost ctx' ->
  Nat.iter k (fun r => r ≫= pass blocks) (Ok ctx) = Ok (afterPasses k ctx) /\
  disposalCost (afterPasses k ctx) = disposalCost (afterPasses k ctx') /\
  co2Cost (afterPasses k ctx) = co2Cost (afterPasses k ctx').
Proof.
  intros Hm He Hd Hc. split.
  - induction k as [|k IH]; [reflexivity|].
    simpl. rewrite IH. apply pass_blocks.
  - induction k as [|k IH]; [auto|].
    rewrite !afterPasses_S. destruct IH as [IHd IHc].
    destruct (afterPasses_inputs k ctx) as (Hm1 & He1 & _).
    destruct (afterPasses_inputs k ctx') as (Hm2 & He2 & _).
    unfold sweep; simpl. rewrite Hm1, Hm2, He1, He2, IHc, Hm, He. auto.
Qed.

End Loop.

(** * binary64: thresholds and inputs that rule out convergence *)

Section NeverConverges.
Local Open Scope float_scope.

Implicit Types (ctx prev : SimulationContext float).

Lemma is_finite_false (x : float) :
  PrimFloat.is_finite x = false -> SFnonfinite (Prim2SF x) = true.
Proof.
  unfold PrimFloat.is_finite, PrimFloat.is_nan, PrimFloat.is_infinity.
  rewrite !FloatAxioms.eqb_spec, abs_spec.
  change (Prim2SF infinity) with (S754_infinity false).
  destruct (Prim2SF x) as [s|s| |s m e]; simpl; try reflexivity;
    unfold SFeqb; simpl;
    rewrite ?Z.compare_refl, ?Pos.compare_cont_refl;
    destruct s; simpl; discriminate.
Qed.

Lemma mul_nonfinite (x y : float) :
  SFnonfinite (Prim2SF x) = true -> SFnonfinite (Prim2SF (x * y)) = true.
Proof.
  rewrite mul_spec. unfold SF64mul.
  destruct (Prim2SF x) as [s|s| |s m e]; try discriminate; intros _;
    destruct (Prim2SF y); reflexivity.
Qed.

Lemma add_nonfinite_l (x y : float) :
  SFnonfinite (Prim2SF x) = true -> SFnonfinite (Prim2SF (x + y)) = true.
Proof.
  rewrite add_spec. unfold SF64add.
  destruct (Prim2SF x) as [s|s| |s m e]; try discriminate; intros _;
    destruct (Prim2SF y) as [s'|s'| |s' m' e']; try reflexivity;
    destruct s, s'; reflexivity.
Qed.

Lemma add_nonfinite_r (x y : float) :
  SFnonfinite (Prim2SF y) = true -> SFnonfinite (Prim2SF (x + y)) = true.
Proof.
  rewrite add_spec. unfold SF64add.
  destruct (Prim2SF y) as [s|s| |s m e]; try discriminate; intros _;
    destruct (Prim2SF x) as [s'|s'| |s' m' e']; try reflexivity;
    destruct s, s'; reflexivity.
Qed.

Lemma abs_sub_nonfinite (x y : float) :
  SFnonfinite (Prim2SF x) = true ->
  SFunbounded (Prim2SF (abs (x - y))) = true.
Proof.
  rewrite abs_spec, sub_spec. unfold SF64sub.
  destruct (Prim2SF x) as [s|s| |s m e]; try discriminate; intros _;
    destruct (Prim2SF y) as [s'|s'| |s' m' e']; try reflexivity;
    destruct s, s'; reflexivity.
Qed.

Lemma unbounded_not_below (x t : float) :
  SFunbounded (Prim2SF x) = true -> (x <? t) = false.
Proof.
  rewrite ltb_spec. unfold SFltb.
  destruct (Prim2SF x) as [s|[]| |s m e]; try discriminate; intros _;
    destruct (Prim2SF t) as [s'|[]| |s' m' e']; reflexivity.
Qed.

Lemma unbounded_delta_blocks (l : list float) (x t : float) :
  In x l -> SFunbounded (Prim2SF x) = true -> (js_Math_max l <? t) = false.
Proof.
  intros Hx Hu. destruct (js_Math_max l <? t) eqn:E; [|reflexivity].
  rewrite <- (unbounded_not_below x t Hu). symmetry.
  exact (js_Math_max_lt l t x E Hx).
Qed.

Lemma abs_not_below_zero (x t : float) :
  (0 <? t) = false -> (abs x <? t) = false.
Proof.
  rewrite !ltb_spec, abs_spec.
  change (Prim2SF 0) with (S754_zero false).
  unfold SFltb.
  destruct (Prim2SF x) as [s|s| |s m e], (Prim2SF t) as [s'|s'| |s' m' e'];
    simpl; try reflexivity; try tauto;
    destruct s'; try reflexivity; try discriminate.
Qed.

Lemma nonpositive_never_converged (threshold : float) prev ctx :
  (0 <? threshold) = false -> converged threshold prev ctx = false.
Proof.
  intros Ht. unfold converged.
  destruct (Math_max (deltas prev ctx) <? threshold)%num eqn:E;
    [|reflexivity].
  rewrite <- (abs_not_below_zero
                (disposalCost ctx - disposalCost prev) threshold Ht).
  symmetry. apply (js_Math_max_lt _ _ _ E). simpl. tauto.
Qed.

Lemma nonfinite_never_converged (threshold : float) ctx :
  (PrimFloat.is_finite (materialCost ctx) &&
   PrimFloat.is_finite (energyCost ctx) &&
   PrimFloat.is_finite (transportCost ctx)) = false ->
  converged threshold ctx (sweep ctx) = false.
Proof.
  intros H. unfold converged.
  apply andb_false_iff in H as [H|H]; [apply andb_false_iff in H as [H|H]|];
    apply is_finite_false in H.
  - apply unbounded_delta_blocks
      with (x := abs (disposalCost (sweep ctx) - disposalCost ctx));
      [simpl; tauto|].
    apply abs_sub_nonfinite. simpl.
    apply add_nonfinite_l, mul_nonfinite, H.
  - apply unbounded_delta_blocks
      with (x := abs (co2Cost (sweep ctx) - co2Cost ctx));
      [simpl; tauto|].
    apply abs_sub_nonfinite. simpl.
    apply add_nonfinite_l, mul_nonfinite, H.
  - apply unbounded_delta_blocks
      with (x := abs (logisticsCost (sweep ctx) - logisticsCost ctx));
      [simpl; tauto|].
    apply abs_sub_nonfinite. simpl.
    apply add_nonfinite_l, H.
Qed.

Lemma passDelta_converged (threshold : float) ctx (k : nat) :
  (1 <= k)%nat ->
  (passDelta ctx k <? threshold)%num =
    converged threshold (afterPasses (k - 1) ctx)
      (sweep (afterPasses (k - 1) ctx)).
Proof.
  intros Hk. unfold passDelta, converged.
  destruct k as [|k]; [lia|].
  replace (S k - 1)%nat with k by lia. reflexivity.
Qed.

(** X5. A threshold that is not positive (zero, negative or NaN) is never
    met, not even by a pass that changes nothing: the run always performs
    all the passes the cap allows. *)
Theorem nonpositive_threshold_exhausts scenarioName maxIterations
    (threshold : float) ov :
  (0 <? threshold) = false ->
  exists ctx0, resolveInputs scenarioName ov = Ok ctx0 /\
    runSimulationExit scenarioName maxIterations threshold ov =
      Ok (afterPasses (Z.to_nat maxIterations) ctx0, Exhausted).
Proof.
  intros Ht.
  destruct (resolveInputs_defined scenarioName ov) as (ctx0 & H0 & _).
  exists ctx0. split; [exact H0|].
  unfold runSimulationExit. rewrite H0. simpl.
  apply relaxExit_exhausted. intros k Hk.
  rewrite passDelta_converged by lia.
  now apply nonpositive_never_converged.
Qed.

(** X6. When one of the resolved input values is not finite (NaN or an
    infinity), the convergence test fails on every pass, whatever the
    threshold: the run performs all the passes the cap allows. *)
Theorem non_finite_input_exhausts scenarioName maxIterations
    (threshold : float) ov ctx0 :
  resolveInputs scenarioName ov = Ok ctx0 ->
  (PrimFloat.is_finite (materialCost ctx0) &&
   PrimFloat.is_finite (energyCost ctx0) &&
   PrimFloat.is_finite (transportCost ctx0)) = false ->
  runSimulationExit scenarioName maxIterations threshold ov =
    Ok (afterPasses (Z.to_nat maxIterations) ctx0, Exhausted).
Proof.
  intros H0 Hinf.
  unfold runSimulationExit. rewrite H0. simpl.
  apply relaxExit_exhausted. intros k Hk.
  rewrite passDelta_converged by lia.
  apply nonfinite_never_converged.
  destruct (afterPasses_inputs (k - 1) ctx0) as (-> & -> & ->).
  exact Hinf.
Qed.

End NeverConverges.

(** * The projection and the comparison page *)

Section Page.
Context {A : Type} {N : Number A}.
Local Open Scope num_scope.

Implicit Types (ctx : SimulationContext A) (inputs : gmap string A).

Lemma displayLabels_NoDup : NoDup displayLabels.
Proof. apply (bool_decide_unpack _). vm_compute. exact I. Qed.

(** X7. The rows carry the same seven labels, pairwise distinct and in the
    same positions, for every context, and nothing of the context is lost:
    two contexts with the same rows are the same context. *)
Theorem display_rows_faithful ctx ctx' :
  List.map fst (getDisplayRows ctx) = displayLabels /\
  NoDup (List.map fst (getDisplayRows ctx)) /\
  List.map snd (getDisplayRows ctx) =
    [ materialCost ctx; energyCost ctx; disposalCost ctx; co2Cost ctx;
      transportCost ctx; logisticsCost ctx; ecoFees ctx ] /\
  (getDisplayRows ctx = getDisplayRows ctx' -> ctx = ctx').
Proof.
  split; [reflexivity|]. split; [apply displayLabels_NoDup|].
  split; [reflexivity|].
  destruct ctx, ctx'. unfold getDisplayRows. simpl. congruence.
Qed.

(** ** Scenario rows *)

Lemma catalog_total (s : ScenarioName) :
  is_Some ((scenarios (A:=A)) !! keyOf s).
Proof. destruct s; eexists; reflexivity. Qed.

Lemma keyOf_inj (s s' : ScenarioName) : keyOf s = keyOf s' -> s = s'.
Proof. destruct s, s'; simpl; congruence. Qed.

Lemma keyOf_not_name (s : ScenarioName) : keyOf s <> "name".
Proof. destruct s; discriminate. Qed.

Lemma initialInputs_defined inputs :
  initialInputs = Ok inputs -> inputsDefined inputs.
Proof. intros [= <-]. repeat split; eexists; reflexivity. Qed.

Lemma onInputChange_defined key val inputs :
  inputsDefined inputs -> inputsDefined (onInputChange key val inputs).
Proof.
  unfold inputsDefined, onInputChange. intros (Hm & He & Ht).
  rewrite !lookup_insert_is_Some. tauto.
Qed.

Lemma reachable_inputs_defined inputs :
  reachableInputs inputs -> inputsDefined inputs.
Proof.
  induction 1 as [inputs H|key val inputs _ IH].
  - now apply initialInputs_defined.
  - now apply onInputChange_defined.
Qed.

(** What the page hands to [runSimulation] for Base. *)
Lemma scenarioRows_Base inputs (m e t : A) :
  inputs !! "materialCost" = Some m ->
  inputs !! "energyCost" = Some e ->
  inputs !! "transportCost" = Some t ->
  scenarioRows inputs BaseKey =
    ctx ← runSimulation "Base" 100 (lit 0.001)
            (Some {| Production :=
                       Some {[ "materialCost" := m; "energyCost" := e ]};
                     Logistics := Some {[ "transportCost" := t ]} |});
    Ok (getDisplayRows ctx).
Proof.
  intros Hm He Ht. unfold scenarioRows.
  change ((scenarios (A:=A)) !! keyOf BaseKey) with (Some (Base (A:=A))).
  simpl. unfold assignIfPresent.
  change (orEmpty (Production Base) !! "materialCost")
    with (Some (lit (A:=A) 120)).
  rewrite Hm. simpl.
  change ((<["materialCost" := m]> (orEmpty (Production Base)))
            !! "energyCost") with (Some (lit (A:=A) 60)).
  rewrite He. simpl.
  change (orEmpty (Logistics Base) !! "transportCost")
    with (Some (lit (A:=A) 35)).
  rewrite Ht. simpl. reflexivity.
Qed.

Lemma run_with_input_overrides scenarioName maxIterations threshold
    (m e t : A) :
  exists ctx,
    runSimulation scenarioName maxIterations threshold
      (Some {| Production :=
                 Some {[ "materialCost" := m; "energyCost" := e ]};
               Logistics := Some {[ "transportCost" := t ]} |}) = Ok ctx /\
    materialCost ctx = m /\ energyCost ctx = e /\ transportCost ctx = t.
Proof.
  set (ov := Some {| Production := Some _; Logistics := Some _ |}).
  destruct (resolveInputs_defined scenarioName ov)
    as (ctx0 & H0 & Hm & He & Ht & _).
  destruct (runSimulation_afterPasses _ maxIterations threshold _ _ H0)
    as (k & _ & Hk).
  exists (afterPasses k ctx0). split; [exact Hk|].
  destruct (afterPasses_inputs k ctx0) as (-> & -> & ->).
  unfold resolvedInput in *.
  change (overrideOf ov Production "materialCost") with (Some m) in Hm.
  change (overrideOf ov Production "energyCost") with (Some e) in He.
  change (overrideOf ov Logistics "transportCost") with (Some t) in Ht.
  simpl in *. repeat split; congruence.
Qed.

Lemma scenarioRows_other inputs (scenario : ScenarioName) :
  scenario <> BaseKey ->
  scenarioRows inputs scenario =
    ctx ← runSimulation (keyOf scenario) 100 (lit 0.001) None;
    Ok (getDisplayRows ctx).
Proof.
  intros Hs. destruct scenario; [congruence|].
  unfold scenarioRows.
  change ((scenarios (A:=A)) !! keyOf HighEnergyPricesKey)
    with (Some (HighEnergyPrices (A:=A))).
  simpl. unfold runSimulation, runSimulationOn.
  rewrite !resolveInputs_reads. reflexivity.
Qed.

Lemma scenarioRows_defined inputs (scenario : ScenarioName) :
  inputsDefined inputs ->
  exists ctx, scenarioRows inputs scenario = Ok (getDisplayRows ctx).
Proof.
  intros ([m Hm] & [e He] & [t Ht]).
  destruct (decide (scenario = BaseKey)) as [->|Hs].
  - rewrite (scenarioRows_Base inputs m e t Hm He Ht).
    destruct (run_with_input_overrides "Base" 100 (lit 0.001) m e t)
      as (ctx & -> & _).
    exists ctx. reflexivity.
  - rewrite (scenarioRows_other inputs scenario Hs).
    destruct (resolveInputs_defined (keyOf scenario) None) as (ctx0 & H0 & _).
    destruct (runSimulation_afterPasses _ 100 (lit 0.001) _ _ H0)
      as (k & _ & ->).
    eexists. reflexivity.
Qed.

(** X8. For the Base scenario the page shows the simulation of its three
    input fields: the rows are those of the run whose manual overrides are
    the current inputs, so the context projected carries exactly these
    inputs, whatever numbers they are. *)
Theorem base_rows_follow_inputs inputs (m e t : A) :
  inputs !! "materialCost" = Some m ->
  inputs !! "energyCost" = Some e ->
  inputs !! "transportCost" = Some t ->
  exists ctx,
    scenarioRows inputs BaseKey = Ok (getDisplayRows ctx) /\
    runSimulation "Base" 100 (lit 0.001)
      (Some {| Production :=
                 Some {[ "materialCost" := m; "energyCost" := e ]};
               Logistics := Some {[ "transportCost" := t ]} |}) = Ok ctx /\
    materialCost ctx = m /\ energyCost ctx = e /\ transportCost ctx = t.
Proof.
  intros Hm He Ht. rewrite (scenarioRows_Base inputs m e t Hm He Ht).
  destruct (run_with_input_overrides "Base" 100 (lit 0.001) m e t)
    as (ctx & Hrun & Hc).
  exists ctx. rewrite Hrun. split; [reflexivity|]. split; [reflexivity|].
  exact Hc.
Qed.

(** X9. For a scenario other than Base the inputs of the page are not
    used at all: the rows are those of the plain run of that scenario,
    without manual overrides. *)
Theorem other_rows_ignore_inputs inputs (scenario : ScenarioName) :
  scenario <> BaseKey ->
  scenarioRows inputs scenario =
    ctx ← runSimulation (keyOf scenario) 100 (lit 0.001) None;
    Ok (getDisplayRows ctx).
Proof. apply scenarioRows_other. Qed.

(** X10. On every state of the inputs that the page can reach (the initial
    one and any sequence of field edits, whatever key and number they
    carry) and for every scenario of the catalog, the rows are computed
    without error and carry the seven labels. *)
Theorem reachable_rows_succeed inputs (scenario : ScenarioName) :
  reachableInputs inputs ->
  exists ctx, scenarioRows inputs scenario = Ok (getDisplayRows ctx) /\
    List.map fst (getDisplayRows ctx) = displayLabels.
Proof.
  intros Hr. apply reachable_inputs_defined in Hr.
  destruct (scenarioRows_defined inputs scenario Hr) as (ctx & Hrows).
  exists ctx. split; [exact Hrows|reflexivity].
Qed.

End Page.

(** ** The selection of scenarios *)

Lemma toggle_elem (s s' : ScenarioName) (prev : list ScenarioName) :
  s' ∈ handleScenarioToggle s prev <->
  (s' = s /\ s ∉ prev) \/ (s' <> s /\ s' ∈ prev).
Proof.
  unfold handleScenarioToggle. case_bool_decide as Hin.
  - rewrite list_elem_of_filter. split.
    + intros [Hne Hs']. now right.
    + intros [[-> Hn]|[Hne Hs']]; [contradiction|split; assumption].
  - rewrite elem_of_app, list_elem_of_singleton. split.
    + intros [Hs'| ->]; [right|left; split; [reflexivity|assumption]].
      split; [|exact Hs']. intros ->. contradiction.
    + intros [[-> _]|[_ Hs']]; [now right|now left].
Qed.

Lemma toggle_NoDup (s : ScenarioName) (prev : list ScenarioName) :
  NoDup prev -> NoDup (handleScenarioToggle s prev).
Proof.
  intros Hnd. unfold handleScenarioToggle. case_bool_decide as Hin.
  - now apply NoDup_filter.
  - apply NoDup_app. split; [exact Hnd|]. split.
    + intros x Hx. rewrite list_elem_of_singleton. intros ->. contradiction.
    + apply NoDup_singleton.
Qed.

Lemma filter_other_absent (s : ScenarioName) (l : list ScenarioName) :
  s ∉ l -> filter (fun x => x <> s) l = l.
Proof.
  induction l as [|y l IH]; intros Hs; [reflexivity|].
  rewrite not_elem_of_cons in Hs. destruct Hs as [Hne Hs].
  rewrite filter_cons_True by congruence. now rewrite IH.
Qed.

(** X11. Toggling a scenario flips its membership in the selection and
    nobody else's, and a selection without repetition stays without
    repetition. *)
Theorem toggle_flips_membership (s : ScenarioName)
    (prev : list ScenarioName) :
  (s ∈ handleScenarioToggle s prev <-> s ∉ prev) /\
  (forall s', s' <> s -> (s' ∈ handleScenarioToggle s prev <-> s' ∈ prev)) /\
  (NoDup prev -> NoDup (handleScenarioToggle s prev)).
Proof.
  split; [|split].
  - rewrite toggle_elem. tauto.
  - intros s' Hne. rewrite toggle_elem. tauto.
  - apply toggle_NoDup.
Qed.

(** X12. Toggling the same scenario twice gives back the selection: the
    very same list when the scenario was not selected, and for a selection
    without repetition the same scenarios with the toggled one moved to the
    end when it was. *)
Theorem toggle_twice (s : ScenarioName) (prev : list ScenarioName) :
  NoDup prev ->
  handleScenarioToggle s (handleScenarioToggle s prev) ≡ₚ prev /\
  (s ∉ prev ->
     handleScenarioToggle s (handleScenarioToggle s prev) = prev) /\
  (s ∈ prev ->
     handleScenarioToggle s (handleScenarioToggle s prev) =
       filter (fun x => x <> s) prev ++ [s]).
Proof.
  intros Hnd. split; [|split].
  - apply NoDup_Permutation; [now do 2 apply toggle_NoDup|exact Hnd|].
    intros x. rewrite !toggle_elem.
    destruct (decide (x = s)) as [->|Hne]; tauto.
  - intros Hs. unfold handleScenarioToggle at 2.
    rewrite bool_decide_eq_false_2 by exact Hs.
    unfold handleScenarioToggle.
    rewrite bool_decide_eq_true_2
      by (rewrite elem_of_app, list_elem_of_singleton; now right).
    rewrite filter_app, filter_other_absent by exact Hs.
    rewrite filter_cons_False by tauto. now rewrite app_nil_r.
  - intros Hs. unfold handleScenarioToggle at 2.
    rewrite bool_decide_eq_true_2 by exact Hs.
    unfold handleScenarioToggle.
    rewrite bool_decide_eq_false_2; [reflexivity|].
    rewrite list_elem_of_filter. tauto.
Qed.

(** ** The chart *)

Section Chart.
Context {A : Type} {N : Number A}.
Local Open Scope num_scope.

Implicit Types (inputs : gmap string A) (selected : list ScenarioName)
  (results : list (list (string * A))) (entry : gmap string (Cell (A:=A))).

Lemma scenarioResults_defined inputs selected :
  inputsDefined inputs ->
  exists results, scenarioResults inputs selected = Ok results /\
    Forall2 (fun s rows => exists ctx,
               scenarioRows inputs s = Ok rows /\ rows = getDisplayRows ctx)
            selected results.
Proof.
  intros Hd. induction selected as [|s selected IH]; simpl.
  - exists []. split; [reflexivity|constructor].
  - destruct (scenarioRows_defined inputs s Hd) as (ctx & Hs).
    destruct IH as (results & -> & HF). rewrite Hs. simpl.
    exists (getDisplayRows ctx :: results). split; [reflexivity|].
    constructor; [eauto|exact HF].
Qed.

Lemma fillEntry_spec results (idx : nat) : forall selected (sIdx : nat) entry,
  (forall i s, selected !! i = Some s ->
     exists rows row, results !! (sIdx + i)%nat = Some rows /\
                      rows !! idx = Some row) ->
  exists entry', fillEntry results idx sIdx selected entry = Ok entry' /\
    (forall key, (forall s, s ∈ selected -> keyOf s <> key) ->
       entry' !! key = entry !! key) /\
    (NoDup selected ->
     forall i s rows row, selected !! i = Some s ->
       results !! (sIdx + i)%nat = Some rows -> rows !! idx = Some row ->
       entry' !! keyOf s = Some (Value (snd row))).
Proof.
  induction selected as [|s0 selected IH]; intros sIdx entry Hrows.
  - exists entry. split; [reflexivity|]. split; [reflexivity|].
    intros _ i s rows row Hi. discriminate.
  - destruct (Hrows 0%nat s0 eq_refl) as (rows0 & row0 & Hr0 & Hi0).
    rewrite Nat.add_0_r in Hr0. simpl. rewrite Hr0. simpl. rewrite Hi0. simpl.
    destruct (IH (S sIdx) (<[keyOf s0 := Value (snd row0)]> entry))
      as (entry' & HE & Hkeep & Hset).
    { intros i s Hi. destruct (Hrows (S i) s Hi) as (rows & row & Hr & Hx).
      exists rows, row. split; [|exact Hx].
      now replace (S sIdx + i)%nat with (sIdx + S i)%nat by lia. }
    exists entry'. split; [exact HE|]. split.
    + intros key Hkey. rewrite Hkeep.
      * apply lookup_insert_ne. apply Hkey. now left.
      * intros s Hs. apply Hkey. now right.
    + intros Hnd i s rows row Hi Hr Hx.
      apply NoDup_cons in Hnd as [Hnotin Hnd].
      destruct i as [|i]; simpl in Hi.
      * injection Hi as <-. rewrite Nat.add_0_r in Hr.
        rewrite Hr0 in Hr. injection Hr as <-.
        rewrite Hi0 in Hx. injection Hx as <-.
        rewrite Hkeep; [apply lookup_insert_eq|].
        intros s Hs Heq. apply keyOf_inj in Heq as ->. contradiction.
      * apply (Hset Hnd i s rows row Hi); [|exact Hx].
        now replace (S sIdx + i)%nat with (sIdx + S i)%nat by lia.
Qed.

Lemma chartEntries_spec selected results : forall labels (idx : nat),
  (forall j i s, (j < length labels)%nat -> selected !! i = Some s ->
     exists rows row, results !! i = Some rows /\
                      rows !! (idx + j)%nat = Some row) ->
  exists entries, chartEntries selected results idx labels = Ok entries /\
    length entries = length labels /\
    forall j label, labels !! j = Some label ->
      exists entry, entries !! j = Some entry /\
        fillEntry results (idx + j) 0 selected {[ "name" := Label label ]} =
          Ok entry.
Proof.
  induction labels as [|label labels IH]; intros idx Hrows.
  - exists []. split; [reflexivity|]. split; [reflexivity|].
    intros j l Hj. discriminate.
  - destruct (fillEntry_spec results idx selected 0
                {[ "name" := Label label ]}) as (entry & HE & _).
    { intros i s Hi.
      destruct (Hrows 0%nat i s ltac:(simpl; lia) Hi) as (rows & row & Hr & Hx).
      rewrite Nat.add_0_r in Hx. eauto. }
    destruct (IH (S idx)) as (entries & HC & Hlen & Hall).
    { intros j i s Hj Hi.
      destruct (Hrows (S j) i s ltac:(simpl; lia) Hi) as (rows & row & Hr & Hx).
      exists rows, row. split; [exact Hr|].
      now replace (S idx + j)%nat with (idx + S j)%nat by lia. }
    simpl. rewrite HE. simpl. rewrite HC. simpl.
    exists (entry :: entries). split; [reflexivity|].
    split; [simpl; now rewrite Hlen|].
    intros j l Hj. destruct j as [|j]; simpl in Hj.
    + injection Hj as <-. exists entry. split; [reflexivity|].
      now rewrite Nat.add_0_r.
    + destruct (Hall j l Hj) as (e & He & Hf).
      exists e. split; [exact He|].
      now replace (idx + S j)%nat with (S idx + j)%nat by lia.
Qed.

Lemma getDisplayRows_lookup (ctx : SimulationContext A) (idx : nat) :
  (idx < 7)%nat ->
  exists label v, getDisplayRows ctx !! idx = Some (label, v) /\
                  displayLabels !! idx = Some label.
Proof.
  intros Hidx.
  do 7 (destruct idx as [|idx]; [eexists _, _; split; reflexivity|]).
  lia.
Qed.

(** X13. The chart data of a selection without repetition, on inputs that
    are present: it is computed without error, it is empty when nothing is
    selected and has seven entries otherwise, and the entry at each
    position carries the label of that position under "name" and, under
    the key of every selected scenario, the value of that scenario's row
    at the same position. *)
Theorem chart_data_entries inputs selected :
  inputsDefined inputs ->
  NoDup selected ->
  exists entries, chartData inputs selected = Ok entries /\
    length entries = (if selected is [] then 0 else 7)%nat /\
    forall idx s rows label v,
      s ∈ selected ->
      scenarioRows inputs s = Ok rows ->
      rows !! idx = Some (label, v) ->
      exists entry, entries !! idx = Some entry /\
        entry !! "name" = Some (Label label) /\
        entry !! keyOf s = Some (Value v).
Proof.
  intros Hd Hnd.
  destruct (scenarioResults_defined inputs selected Hd) as (results & HR & HF).
  unfold chartData. rewrite HR. simpl.
  assert (Hrows : forall i s, selected !! i = Some s ->
            exists ctx, results !! i = Some (getDisplayRows ctx) /\
                        scenarioRows inputs s = Ok (getDisplayRows ctx)).
  { intros i s Hi.
    destruct (Forall2_lookup_l _ _ _ _ _ HF Hi)
      as (rows & Hr & ctx & Hs & ->). eauto. }
  assert (Hlabels : attributeLabels results =
            if selected is [] then [] else displayLabels).
  { destruct HF as [|s rows selected' results' (ctx & _ & ->) _];
      reflexivity. }
  destruct (chartEntries_spec selected results (attributeLabels results) 0)
    as (entries & HC & Hlen & Hall).
  { intros j i s Hj Hi. destruct (Hrows i s Hi) as (ctx & Hr & _).
    rewrite Hlabels in Hj.
    assert (Hj7 : (j < 7)%nat) by (destruct selected; simpl in Hj; lia).
    destruct (getDisplayRows_lookup ctx j Hj7) as (label & v & Hx & _).
    exists (getDisplayRows ctx), (label, v). split; [exact Hr|exact Hx]. }
  exists entries. split; [exact HC|]. split.
  { rewrite Hlen, Hlabels. now destruct selected. }
  intros idx s rows label v Hs Hrun Hx.
  apply list_elem_of_lookup_1 in Hs as (i & Hi).
  destruct (Hrows i s Hi) as (ctx & Hr & Hrun').
  rewrite Hrun in Hrun'. injection Hrun' as ->.
  assert (Hidx : (idx < 7)%nat).
  { apply lookup_lt_Some in Hx. exact Hx. }
  destruct (getDisplayRows_lookup ctx idx Hidx) as (label' & v' & Hx' & Hl).
  rewrite Hx in Hx'. injection Hx' as <- <-.
  assert (Hal : attributeLabels results !! idx = Some label).
  { rewrite Hlabels. destruct selected; [discriminate|exact Hl]. }
  destruct (Hall idx label Hal) as (entry & He & Hfill).
  exists entry. split; [exact He|].
  destruct (fillEntry_spec results idx selected 0 {[ "name" := Label label ]})
    as (entry' & Hfill' & Hkeep & Hset).
  { intros i' s' Hi'. destruct (Hrows i' s' Hi') as (ctx' & Hr' & _).
    destruct (getDisplayRows_lookup ctx' idx Hidx) as (l' & w' & Hy & _).
    eauto. }
  simpl in Hfill. rewrite Hfill in Hfill'. injection Hfill' as <-.
  split.
  - rewrite Hkeep; [apply lookup_singleton_eq|].
    intros s' _. apply keyOf_not_name.
  - apply (Hset Hnd i s (getDisplayRows ctx) (label, v) Hi Hr Hx).
Qed.

End Chart.

(** ** Instances of the conditional statements above *)

Section MoreInstances.
Import Samples.
Local Open Scope float_scope.

Lemma stops_at_first_converging_pass_witness :
  resolveInputs "Base" None = Ok baseInitial /\
  (1 <= 6 <= 100)%nat /\
  (passDelta baseInitial 6 <? lit 0.001) = true /\
  (forall j, (1 <= j < 6)%nat -> (passDelta baseInitial j <? lit 0.001) = false)
  /\ (runSimulationExit "Base" (Z.of_nat 100) (lit 0.001) None =
        Ok (afterPasses 6 baseInitial, Converged) /\
      runSimulation "Base" (Z.of_nat 100) (lit 0.001) None =
        Ok (afterPasses 6 baseInitial)).
Proof.
  assert (H0 : resolveInputs "Base" None = Ok baseInitial)
    by (vm_compute; reflexivity).
  assert (Hk : (1 <= 6 <= 100)%nat) by lia.
  assert (Hlt : (passDelta baseInitial 6 <? lit 0.001) = true)
    by (vm_compute; reflexivity).
  assert (Hbefore : forall j, (1 <= j < 6)%nat ->
            (passDelta baseInitial j <? lit 0.001) = false).
  { intros j Hj.
    destruct j as [|[|[|[|[|[|j]]]]]]; try lia; vm_compute; reflexivity. }
  split; [exact H0|]. split; [exact Hk|]. split; [exact Hlt|].
  split; [exact Hbefore|].
  exact (stops_at_first_converging_pass "Base" 100 6 (lit 0.001) None
           baseInitial H0 Hk Hlt Hbefore).
Defined.

Lemma larger_cap_same_result_witness :
  runSimulationExit "Base" 100 (lit 0.001) None =
    Ok (baseConverged, Converged) /\
  (100 <= 1000)%Z /\
  (runSimulationExit "Base" 1000 (lit 0.001) None =
     Ok (baseConverged, Converged) /\
   runSimulation "Base" 1000 (lit 0.001) None = Ok baseConverged).
Proof.
  assert (HE : runSimulationExit "Base" 100 (lit 0.001) None =
               Ok (baseConverged, Converged)) by (vm_compute; reflexivity).
  assert (Hle : (100 <= 1000)%Z) by lia.
  split; [exact HE|]. split; [exact Hle|].
  exact (larger_cap_same_result "Base" 100 1000 (lit 0.001) None
           baseConverged HE Hle).
Defined.

Lemma returned_context_is_a_pass_witness :
  (0 < 100)%Z /\
  exists ctx prev : SimulationContext float,
    runSimulation "Base" 100 (lit 0.001) None = Ok ctx /\
    pass blocks prev = Ok ctx /\
    co2Cost ctx = energyCost ctx * lit 0.1 + disposalCost ctx * lit 0.05 /\
    ecoFees ctx = logisticsCost ctx * lit 0.1 + co2Cost ctx * lit 0.05 /\
    disposalCost ctx = materialCost ctx * lit 0.8 + co2Cost prev /\
    logisticsCost ctx = transportCost ctx + ecoFees prev.
Proof.
  assert (Hn : (0 < 100)%Z) by lia.
  split; [exact Hn|].
  exact (returned_context_is_a_pass (A:=float) "Base" 100 (lit 0.001) None Hn).
Defined.

Lemma production_ignores_logistics_witness :
  materialCost baseInitial = materialCost baseInitialOtherLogistics /\
  energyCost baseInitial = energyCost baseInitialOtherLogistics /\
  disposalCost baseInitial = disposalCost baseInitialOtherLogistics /\
  co2Cost baseInitial = co2Cost baseInitialOtherLogistics /\
  (Nat.iter 3 (fun r => r ≫= pass blocks) (Ok baseInitial) =
     Ok (afterPasses 3 baseInitial) /\
   disposalCost (afterPasses 3 baseInitial) =
     disposalCost (afterPasses 3 baseInitialOtherLogistics) /\
   co2Cost (afterPasses 3 baseInitial) =
     co2Cost (afterPasses 3 baseInitialOtherLogistics)).
Proof.
  do 4 (split; [reflexivity|]).
  exact (production_ignores_logistics 3 baseInitial baseInitialOtherLogistics
           eq_refl eq_refl eq_refl eq_refl).
Defined.

Lemma nonpositive_threshold_exhausts_witness :
  (0 <? 0) = false /\
  exists ctx0, resolveInputs "Base" None = Ok ctx0 /\
    runSimulationExit "Base" 100 0 None =
      Ok (afterPasses (Z.to_nat 100) ctx0, Exhausted).
Proof.
  assert (Ht : (0 <? 0) = false) by (vm_compute; reflexivity).
  split; [exact Ht|].
  exact (nonpositive_threshold_exhausts "Base" 100 0 None Ht).
Defined.

Lemma non_finite_input_exhausts_witness :
  resolveInputs "Base" transportInfinity = Ok transportInfinityInitial /\
  (PrimFloat.is_finite (materialCost transportInfinityInitial) &&
   PrimFloat.is_finite (energyCost transportInfinityInitial) &&
   PrimFloat.is_finite (transportCost transportInfinityInitial)) = false /\
  runSimulationExit "Base" 100 infinity transportInfinity =
    Ok (afterPasses (Z.to_nat 100) transportInfinityInitial, Exhausted).
Proof.
  assert (H0 : resolveInputs "Base" transportInfinity =
               Ok transportInfinityInitial) by (vm_compute; reflexivity).
  assert (Hinf :
    (PrimFloat.is_finite (materialCost transportInfinityInitial) &&
     PrimFloat.is_finite (energyCost transportInfinityInitial) &&
     PrimFloat.is_finite (transportCost transportInfinityInitial)) = false)
    by (vm_compute; reflexivity).
  split; [exact H0|]. split; [exact Hinf|].
  exact (non_finite_input_exhausts "Base" 100 infinity transportInfinity
           transportInfinityInitial H0 Hinf).
Defined.

Lemma base_rows_follow_inputs_witness :
  pageInputs !! "materialCost" = Some 100 /\
  pageInputs !! "energyCost" = Some 50 /\
  pageInputs !! "transportCost" = Some 20 /\
  exists ctx,
    scenarioRows pageInputs BaseKey = Ok (getDisplayRows ctx) /\
    runSimulation "Base" 100 (lit 0.001)
      (Some {| Production :=
                 Some {[ "materialCost" := 100; "energyCost" := 50 ]};
               Logistics := Some {[ "transportCost" := 20 ]} |}) = Ok ctx /\
    materialCost ctx = 100 /\ energyCost ctx = 50 /\ transportCost ctx = 20.
Proof.
  assert (Hm : pageInputs !! "materialCost" = Some 100)
    by (vm_compute; reflexivity).
  assert (He : pageInputs !! "energyCost" = Some 50)
    by (vm_compute; reflexivity).
  assert (Ht : pageInputs !! "transportCost" = Some 20)
    by (vm_compute; reflexivity).
  split; [exact Hm|]. split; [exact He|]. split; [exact Ht|].
  exact (base_rows_follow_inputs pageInputs 100 50 20 Hm He Ht).
Defined.

Lemma other_rows_ignore_inputs_witness :
  HighEnergyPricesKey <> BaseKey /\
  scenarioRows pageInputs HighEnergyPricesKey =
    ctx ← runSimulation (keyOf HighEnergyPricesKey) 100 (lit 0.001) None;
    Ok (getDisplayRows ctx).
Proof.
  assert (Hs : HighEnergyPricesKey <> BaseKey) by discriminate.
  split; [exact Hs|].
  exact (other_rows_ignore_inputs pageInputs HighEnergyPricesKey Hs).
Defined.

Lemma reachable_rows_succeed_witness :
  reachableInputs (onInputChange "energyCost" 50 pageInitialInputs) /\
  exists ctx,
    scenarioRows (onInputChange "energyCost" 50 pageInitialInputs) BaseKey =
      Ok (getDisplayRows ctx) /\
    List.map fst (getDisplayRows ctx) = displayLabels.
Proof.
  assert (Hr : reachableInputs
                 (onInputChange "energyCost" 50 pageInitialInputs)).
  { apply reachable_change, reachable_initial. vm_compute. reflexivity. }
  split; [exact Hr|].
  exact (reachable_rows_succeed _ BaseKey Hr).
Defined.

Lemma toggle_twice_witness :
  NoDup scenarioKeys /\
  (handleScenarioToggle BaseKey (handleScenarioToggle BaseKey scenarioKeys)
     ≡ₚ scenarioKeys /\
   (BaseKey ∉ scenarioKeys ->
      handleScenarioToggle BaseKey (handleScenarioToggle BaseKey scenarioKeys)
        = scenarioKeys) /\
   (BaseKey ∈ scenarioKeys ->
      handleScenarioToggle BaseKey (handleScenarioToggle BaseKey scenarioKeys)
        = filter (fun x => x <> BaseKey) scenarioKeys ++ [BaseKey])).
Proof.
  assert (Hnd : NoDup scenarioKeys)
    by (apply (bool_decide_unpack _); vm_compute; exact I).
  split; [exact Hnd|].
  exact (toggle_twice BaseKey scenarioKeys Hnd).
Defined.

Lemma chart_data_entries_witness :
  inputsDefined pageInputs /\
  NoDup scenarioKeys /\
  exists entries, chartData pageInputs scenarioKeys = Ok entries /\
    length entries = 7%nat /\
    forall idx s rows label v,
      s ∈ scenarioKeys ->
      scenarioRows pageInputs s = Ok rows ->
      rows !! idx = Some (label, v) ->
      exists entry, entries !! idx = Some entry /\
        entry !! "name" = Some (Label label) /\
        entry !! keyOf s = Some (Value v).
Proof.
  assert (Hd : inputsDefined pageInputs)
    by (repeat split; eexists; vm_compute; reflexivity).
  assert (Hnd : NoDup scenarioKeys)
    by (apply (bool_decide_unpack _); vm_compute; exact I).
  split; [exact Hd|]. split; [exact Hnd|].
  exact (chart_data_entries pageInputs scenarioKeys Hd Hnd).
Defined.

End MoreInstances.


(** * binary64: the largest change from pass to pass *)

Section CatalogRuns.
Import Samples.
Local Open Scope float_scope.

Implicit Types (ctx : SimulationContext float).

(** With a finite transportCost near the largest number, the passes change
    the context by 1.7976931348623157e308, then by Infinity, then by NaN. *)
Example overflow_breaks_monotonicity :
  PrimFloat.is_finite 1.7976931348623157e308 = true /\
  resolveInputs "Base" transportHuge = Ok transportHugeInitial /\
  List.map (passDelta transportHugeInitial) [1; 2; 3]%nat =
    [1.7976931348623157e308; infinity; nan].
Proof. evaluate. Qed.










End CatalogRuns.
